(** * The coordinate validator and the configuration summary of
      [Matts_py_files/radj.py]

    The file is a Tk front-end; its logic is
    [GSQDownloaderGUI.parse_coordinates], [convert_latlon_to_lonlat] and
    [update_summary].  They are embedded here as functions on the text the
    widgets hold.

    Text is a list of characters.  A character is a code point below 256
    (the Latin-1 range): in this range the decimal digits are exactly
    [0]..[9] and the white space of [str.strip] is the twelve code points
    of [is_space].  A Python [float] is an IEEE 754 binary64 value,
    represented by [spec_float] with precision 53 and maximal exponent
    1024. *)

From Stdlib Require Import List Ascii String ZArith NArith Bool Lia.
From Stdlib Require Import Floats.SpecFloat DecimalString.
Import ListNotations.

Local Open Scope list_scope.

Definition str := list ascii.

(** String literals of the source are written [txt "..."]. *)
Definition txt (s : string) : str := list_ascii_of_string s.

Definition ascii_eqb (a b : ascii) : bool := Ascii.eqb a b.

(** ** The methods of [str] that the source calls *)
Module PyStr.

(** [str.isspace] on one character: TAB, LF, VT, FF, CR, FS, GS, RS, US,
    SPACE, NEL and NBSP. *)
Definition is_space (c : ascii) : bool :=
  match N_of_ascii c with
  | 9 | 10 | 11 | 12 | 13 | 28 | 29 | 30 | 31 | 32 | 133 | 160 => true
  | _ => false
  end%N.

Definition newline : ascii := ascii_of_N 10.
Definition comma : ascii := ascii_of_N 44.

Fixpoint lstrip (s : str) : str :=
  match s with
  | [] => []
  | c :: r => if is_space c then lstrip r else s
  end.

Definition rstrip (s : str) : str := rev (lstrip (rev s)).

(** [s.strip()] *)
Definition strip (s : str) : str := rstrip (lstrip s).

(** [s.split(sep)] for a one-character separator: never empty, and
    [''.split(sep) == ['']]. *)
Fixpoint split (sep : ascii) (s : str) : list str :=
  match s with
  | [] => [[]]
  | c :: r =>
      if ascii_eqb c sep then [] :: split sep r
      else match split sep r with
           | h :: t => (c :: h) :: t
           | [] => [[c]]
           end
  end.

(** [sep in s] for a one-character [sep] *)
Definition contains (sep : ascii) (s : str) : bool :=
  existsb (fun c => ascii_eqb c sep) s.

(** [not s]: the empty string is the only false one *)
Definition is_empty (s : str) : bool :=
  match s with [] => true | _ => false end.

(** [sep.join(parts)] *)
Fixpoint join (sep : str) (parts : list str) : str :=
  match parts with
  | [] => []
  | [p] => p
  | p :: rest => p ++ sep ++ join sep rest
  end.

(** white-space split, [s.split()]: the maximal runs of non-space
    characters.  [word] is the run being read. *)
Fixpoint split_ws_aux (word : str) (s : str) : list str :=
  match s with
  | [] => match word with [] => [] | _ => [rev word] end
  | c :: r =>
      if is_space c
      then match word with
           | [] => split_ws_aux [] r
           | _ => rev word :: split_ws_aux [] r
           end
      else split_ws_aux (c :: word) r
  end.

Definition split_ws (s : str) : list str := split_ws_aux [] s.

Definition all_space (s : str) : bool := forallb is_space s.

(** [a == b] on strings *)
Definition str_eqb (a b : str) : bool :=
  if list_eq_dec ascii_dec a b then true else false.

End PyStr.

(** ** [float(s)] on a string

    The built-in is not part of the repository; it is written out after the
    language reference:

      floatvalue ::= [sign] (floatnumber | "inf" | "infinity" | "nan")
      floatnumber ::= ([digitpart] "." digitpart | digitpart ["."]) [exponent]
      exponent ::= ("e" | "E") [sign] digitpart
      digitpart ::= digit (["_"] digit)*

    with surrounding white space ignored, the words matched without regard
    to case, and the decimal value rounded to the nearest binary64, ties to
    even.  The white space ignored is not that of [str.strip]: see
    [is_margin]. *)
Module PyFloat.
Import PyStr.

Definition float := spec_float.

Definition prec : Z := 53.
Definition emax : Z := 1024.

Definition is_digit (c : ascii) : bool :=
  (48 <=? N_of_ascii c)%N && (N_of_ascii c <=? 57)%N.

Definition digit_val (c : ascii) : Z := Z.of_N (N_of_ascii c) - 48.

Definition underscore : ascii := ascii_of_N 95.

(** the white space that [float] and [int] skip around a number: TAB, LF,
    VT, FF, CR and SPACE, and NEL and NBSP, which the built-ins turn into a
    space first.  FS, GS, RS and US are not skipped, though [str.strip]
    removes them. *)
Definition is_margin (c : ascii) : bool :=
  match N_of_ascii c with
  | 9 | 10 | 11 | 12 | 13 | 32 | 133 | 160 => true
  | _ => false
  end%N.

Fixpoint skip_margin (s : str) : str :=
  match s with
  | [] => []
  | c :: r => if is_margin c then skip_margin r else s
  end.

Definition trim (s : str) : str := rev (skip_margin (rev (skip_margin s))).

(** An underscore is accepted only between two digits; accepted ones are
    dropped.  [prev] is the character before [s]. *)
Fixpoint drop_underscores (prev : option ascii) (s : str) : option str :=
  match s with
  | [] => Some []
  | c :: r =>
      if ascii_eqb c underscore then
        match prev, r with
        | Some p, n :: _ =>
            if is_digit p && is_digit n then drop_underscores (Some c) r
            else None
        | _, _ => None
        end
      else option_map (cons c) (drop_underscores (Some c) r)
  end.

(** the longest prefix of digits, and what follows it *)
Fixpoint span_digits (s : str) : str * str :=
  match s with
  | c :: r =>
      if is_digit c then let '(d, rest) := span_digits r in (c :: d, rest)
      else ([], s)
  | [] => ([], [])
  end.

Definition digits_value (d : str) : Z :=
  fold_left (fun acc c => 10 * acc + digit_val c)%Z d 0%Z.

(** an optional sign: [true] for minus *)
Definition take_sign (s : str) : bool * str :=
  match s with
  | c :: r =>
      if ascii_eqb c "-"%char then (true, r)
      else if ascii_eqb c "+"%char then (false, r)
      else (false, s)
  | [] => (false, [])
  end.

Definition lower (c : ascii) : ascii :=
  let n := N_of_ascii c in
  if (65 <=? n)%N && (n <=? 90)%N then ascii_of_N (n + 32) else c.

(** [m * 10^e] rounded to binary64, with the sign [neg] *)
Definition decimal_value (neg : bool) (m e : Z) : float :=
  match m with
  | Zpos p =>
      if (0 <=? e)%Z
      then binary_normalize prec emax
             (cond_Zopp neg (m * 10 ^ e)) 0 neg
      else SFdiv prec emax (S754_finite neg p 0)
             (S754_finite false (Z.to_pos (10 ^ (- e))) 0)
  | _ => S754_zero neg
  end.

(** the exponent part: nothing, or [e], an optional sign and digits *)
Definition parse_exponent (s : str) : option Z :=
  match s with
  | [] => Some 0%Z
  | c :: r =>
      if ascii_eqb (lower c) "e"%char then
        let '(eneg, r1) := take_sign r in
        match span_digits r1 with
        | ((_ :: _) as ds, []) => Some (cond_Zopp eneg (digits_value ds))
        | _ => None
        end
      else None
  end.

Definition parse_number (neg : bool) (s : str) : option float :=
  let '(ip, r1) := span_digits s in
  let '(fp, r2) :=
    match r1 with
    | c :: r => if ascii_eqb c "."%char then span_digits r else ([], r1)
    | [] => ([], [])
    end in
  match ip ++ fp with
  | [] => None
  | ds =>
      match parse_exponent r2 with
      | Some e =>
          Some (decimal_value neg (digits_value ds)
                  (e - Z.of_nat (List.length fp)))
      | None => None
      end
  end.

(** [float(s)]; [None] stands for the [ValueError] it raises *)
Definition of_str (s : str) : option float :=
  let '(neg, body) := take_sign (trim s) in
  let word := map lower body in
  if str_eqb word (txt "inf") || str_eqb word (txt "infinity")
  then Some (S754_infinity neg)
  else if str_eqb word (txt "nan") then Some S754_nan
  else match drop_underscores None body with
       | Some digits => parse_number neg digits
       | None => None
       end.

(** the value of a Python [int] in a comparison with a float; exact for
    the small constants of the source *)
Definition of_int (z : Z) : float := binary_normalize prec emax z 0 false.

(** [a <= b] and [a == b] on floats: false as soon as one side is NaN *)
Definition leb (a b : float) : bool := SFleb a b.
Definition eqb (a b : float) : bool := SFeqb a b.

End PyFloat.

(** ** Exceptions

    Everything [parse_coordinates] raises is a [ValueError]; the comment of
    each constructor is the message the source (or the built-in) gives it.
    [ErrorParsingLine] is the error raised by the handler of the [try]
    block, whose message embeds the message of the error it caught. *)
Inductive Exception : Type :=
| NoCoordinatesEntered
    (* "No coordinates entered" *)
| InvalidFormat (line : str)
    (* f"Invalid format: {line}. Use latitude,longitude" *)
| LatitudeOutside (lat : PyFloat.float)
    (* f"Latitude {lat} outside Queensland range (-29 to -10)" *)
| LongitudeOutside (lon : PyFloat.float)
    (* f"Longitude {lon} outside Queensland range (138 to 154)" *)
| ErrorParsingLine (line : str) (e : Exception)
    (* f"Error parsing line '{line}': {e}" *)
| NeedAtLeast3
    (* "Need at least 3 coordinates" *)
| TooManyValues
    (* unpacking more than two parts into [lat_str, lon_str] *)
| NotEnoughValues (got : nat)
    (* unpacking fewer than two parts *)
| CouldNotConvert (s : str)
    (* [float(s)] on a string that is not a number *)
| IndexError.
    (* an index outside a list *)

Inductive result (A : Type) : Type :=
| Ok (a : A)
| Raise (e : Exception).

Arguments Ok {A} a.
Arguments Raise {A} e.

Definition bind {A B : Type} (m : result A) (k : A -> result B) : result B :=
  match m with
  | Ok a => k a
  | Raise e => Raise e
  end.

(** [try: m  except ValueError as e: handler e] *)
Definition try_except {A : Type} (m : result A)
    (handler : Exception -> result A) : result A :=
  match m with
  | Ok a => Ok a
  | Raise e => handler e
  end.

Declare Scope py_scope.
Delimit Scope py_scope with py.
Notation "x <- m ;; k" := (bind m (fun x => k))
  (at level 61, m at next level, right associativity) : py_scope.
Local Open Scope py_scope.

(** ** [GSQDownloaderGUI.parse_coordinates] *)

(** a coordinate [[lat, lon]] *)
Definition Coord : Type := PyFloat.float * PyFloat.float.

Definition float_of (s : str) : result PyFloat.float :=
  match PyFloat.of_str s with
  | Some x => Ok x
  | None => Raise (CouldNotConvert s)
  end.

(** [-29 <= lat <= -10] and [138 <= lon <= 154] *)
Definition lat_in_range (lat : PyFloat.float) : bool :=
  PyFloat.leb (PyFloat.of_int (-29)) lat && PyFloat.leb lat (PyFloat.of_int (-10)).

Definition lon_in_range (lon : PyFloat.float) : bool :=
  PyFloat.leb (PyFloat.of_int 138) lon && PyFloat.leb lon (PyFloat.of_int 154).

(** the body of the [try] block, on a stripped line that holds a comma *)
Definition parse_pair (line : str) : result Coord :=
  match PyStr.split PyStr.comma line with
  | [lat_str; lon_str] =>
      lat <- float_of (PyStr.strip lat_str) ;;
      lon <- float_of (PyStr.strip lon_str) ;;
      if negb (lat_in_range lat) then Raise (LatitudeOutside lat)
      else if negb (lon_in_range lon) then Raise (LongitudeOutside lon)
      else Ok (lat, lon)
  | _ :: _ :: _ :: _ => Raise TooManyValues
  | parts => Raise (NotEnoughValues (List.length parts))
  end.

(** one turn of the [for] loop: [None] when the line is blank and skipped *)
Definition parse_line (raw : str) : result (option Coord) :=
  let line := PyStr.strip raw in
  if PyStr.is_empty line then Ok None
  else if negb (PyStr.contains PyStr.comma line)
  then Raise (InvalidFormat line)
  else
    c <- try_except (parse_pair line)
           (fun e => Raise (ErrorParsingLine line e)) ;;
    Ok (Some c).

(** the [for] loop; [coordinates] is the list built so far *)
Fixpoint read_lines (lines : list str) (coordinates : list Coord)
    : result (list Coord) :=
  match lines with
  | [] => Ok coordinates
  | raw :: rest =>
      oc <- parse_line raw ;;
      match oc with
      | None => read_lines rest coordinates
      | Some c => read_lines rest (coordinates ++ [c])
      end
  end.

(** [a != b] on two coordinates: element-wise float equality *)
Definition coord_ne (a b : Coord) : bool :=
  negb (PyFloat.eqb (fst a) (fst b) && PyFloat.eqb (snd a) (snd b)).

(** [coordinates[0]] and [coordinates[-1]] *)
Definition first_item (l : list Coord) : result Coord :=
  match l with
  | c :: _ => Ok c
  | [] => Raise IndexError
  end.

Definition last_item (l : list Coord) : result Coord :=
  match rev l with
  | c :: _ => Ok c
  | [] => Raise IndexError
  end.

(** the statements after the loop: the count, then the closing vertex *)
Definition close_polygon (coordinates : list Coord) : result (list Coord) :=
  if (List.length coordinates <? 3)%nat then Raise NeedAtLeast3
  else
    first <- first_item coordinates ;;
    last <- last_item coordinates ;;
    if coord_ne first last then Ok (coordinates ++ [first])
    else Ok coordinates.

(** [widget_text] is what [self.coords_text.get(1.0, tk.END)] returns *)
Definition parse_coordinates (widget_text : str) : result (list Coord) :=
  let coords_text := PyStr.strip widget_text in
  if PyStr.is_empty coords_text then Raise NoCoordinatesEntered
  else
    coordinates <- read_lines (PyStr.split PyStr.newline coords_text) [] ;;
    close_polygon coordinates.

(** ** [GSQDownloaderGUI.convert_latlon_to_lonlat] *)
Definition convert_latlon_to_lonlat (latlon_coords : list Coord) : list Coord :=
  map (fun coord => (snd coord, fst coord)) latlon_coords.

(** ** The text of an exception, [str(e)]

    How a float and a quoted string are printed is the interpreter's
    business ([repr]); both printers are parameters. *)
Definition str_of_Z (z : Z) : str :=
  txt (DecimalString.NilZero.string_of_int (Z.to_int z)).

Section Messages.
Variable format_float : PyFloat.float -> str.
Variable repr_str : str -> str.

Fixpoint message (e : Exception) : str :=
  match e with
  | NoCoordinatesEntered => txt "No coordinates entered"
  | InvalidFormat line =>
      txt "Invalid format: " ++ line ++ txt ". Use latitude,longitude"
  | LatitudeOutside lat =>
      txt "Latitude " ++ format_float lat
        ++ txt " outside Queensland range (-29 to -10)"
  | LongitudeOutside lon =>
      txt "Longitude " ++ format_float lon
        ++ txt " outside Queensland range (138 to 154)"
  | ErrorParsingLine line e' =>
      txt "Error parsing line '" ++ line ++ txt "': " ++ message e'
  | NeedAtLeast3 => txt "Need at least 3 coordinates"
  | TooManyValues => txt "too many values to unpack (expected 2)"
  | NotEnoughValues got =>
      txt "not enough values to unpack (expected 2, got "
        ++ str_of_Z (Z.of_nat got) ++ txt ")"
  | CouldNotConvert s =>
      txt "could not convert string to float: " ++ repr_str s
  | IndexError => txt "list index out of range"
  end.
End Messages.

(** ** [GSQDownloaderGUI.update_summary] *)

(** the keys of [self.data_types]; the combobox that holds the selection is
    read-only and offers exactly these *)
Inductive DataType : Type :=
| AllDataTypes | Geochemistry | Geophysics | Geological | Mining
| Hydrogeology.

Definition data_type_name (d : DataType) : str :=
  match d with
  | AllDataTypes => txt "All Data Types (Recommended)"
  | Geochemistry => txt "Geochemistry Data"
  | Geophysics => txt "Geophysics Data"
  | Geological => txt "Geological Data"
  | Mining => txt "Mining Data"
  | Hydrogeology => txt "Hydrogeology Data"
  end.

(** [self.data_types[name]['terms']] *)
Definition data_type_terms (d : DataType) : list str :=
  match d with
  | AllDataTypes =>
      [txt "geology"; txt "mining"; txt "exploration"; txt "geochemistry";
       txt "geophysics"]
  | Geochemistry =>
      [txt "geochemistry"; txt "chemical analysis"; txt "assay";
       txt "elements"]
  | Geophysics =>
      [txt "geophysics"; txt "magnetic"; txt "gravity"; txt "seismic"]
  | Geological =>
      [txt "geology"; txt "geological"; txt "structure"; txt "stratigraphy"]
  | Mining => [txt "mining"; txt "exploration"; txt "resource"; txt "reserve"]
  | Hydrogeology =>
      [txt "hydrogeology"; txt "groundwater"; txt "aquifer"; txt "water"]
  end.

(** the variables of the form that [update_summary] reads, and the text
    widget it writes *)
Record Form : Type := {
  region_var : str;
  data_type_var : DataType;
  search_mode_var : str;
  custom_terms_var : str;
  format_var : str;
  max_datasets_var : str;
  output_dir_var : str;
  precise_filtering_var : bool;
  preview_mode_var : bool;
  coords_text : str;
  summary_text : str
}.

(** [self.summary_text.delete(1.0, tk.END)] then [insert(1.0, s)] *)
Definition set_summary_text (f : Form) (s : str) : Form :=
  {| region_var := region_var f;
     data_type_var := data_type_var f;
     search_mode_var := search_mode_var f;
     custom_terms_var := custom_terms_var f;
     format_var := format_var f;
     max_datasets_var := max_datasets_var f;
     output_dir_var := output_dir_var f;
     precise_filtering_var := precise_filtering_var f;
     preview_mode_var := preview_mode_var f;
     coords_text := coords_text f;
     summary_text := s |}.

Definition yes_no (b : bool) : str := if b then txt "Yes" else txt "No".

Section Summary.
(** the four pictographs that open the headings of the template; they lie
    outside the alphabet of [str] and are kept abstract *)
Variables clipboard pushpin microscope gear : str.
Variable format_float : PyFloat.float -> str.
Variable repr_str : str -> str.

Definition search_terms (f : Form) : str :=
  let search_mode := search_mode_var f in
  if PyStr.str_eqb search_mode (txt "suggested")
  then PyStr.join (txt " OR ") (firstn 3 (data_type_terms (data_type_var f)))
  else if PyStr.str_eqb search_mode (txt "custom")
  then
    let custom_terms := PyStr.strip (custom_terms_var f) in
    if PyStr.is_empty custom_terms then txt "No terms"
    else PyStr.join (txt " OR ") (PyStr.split_ws custom_terms)
  else txt "*:* (everything)".

(** the inner [try]: a bare [except] that swallows every error *)
Definition coords_info (f : Form) : result str :=
  try_except
    (coords <- parse_coordinates (coords_text f) ;;
     Ok (txt "Valid polygon with "
           ++ str_of_Z (Z.of_nat (List.length coords) - 1)
           ++ txt " vertices"))
    (fun _ => Ok (txt "Invalid or missing coordinates")).

Definition summary_template (region info data_type terms file_format
    max_datasets output_dir : str) (precise preview : bool) : str :=
  let nl := [PyStr.newline] in
  clipboard ++ txt " DOWNLOAD CONFIGURATION" ++ nl
  ++ List.concat (repeat (txt "=") 50) ++ nl
  ++ nl
  ++ pushpin ++ txt " Search Area: " ++ region ++ nl
  ++ txt "   Coordinates: " ++ info ++ nl
  ++ nl
  ++ microscope ++ txt " Data Type: " ++ data_type ++ nl
  ++ txt "   Search Terms: " ++ terms ++ nl
  ++ txt "   File Formats: " ++ file_format ++ nl
  ++ nl
  ++ gear ++ txt " Settings:" ++ nl
  ++ txt "   Max Datasets: " ++ max_datasets ++ nl
  ++ txt "   Output Directory: " ++ output_dir ++ nl
  ++ txt "   Precise Filtering: " ++ yes_no precise ++ nl
  ++ txt "   Preview Mode: " ++ yes_no preview ++ nl
  ++ nl
  ++ txt "Status: "
  ++ (if preview then txt "Ready for preview" else txt "Ready for download")
  ++ nl.

(** the body of the outer [try] *)
Definition summary_body (f : Form) : result Form :=
  let terms := search_terms f in
  info <- coords_info f ;;
  Ok (set_summary_text f
        (summary_template (region_var f) info
           (data_type_name (data_type_var f)) terms (format_var f)
           (max_datasets_var f) (output_dir_var f)
           (precise_filtering_var f) (preview_mode_var f))).

Definition update_summary (f : Form) : result Form :=
  try_except (summary_body f)
    (fun e =>
       Ok (set_summary_text f
             (txt "Error updating summary: "
                ++ message format_float repr_str e))).
End Summary.

(** ** Notions used to state the properties *)

(** the lines the loop does not skip, as it sees them: stripped, non-blank *)
Definition nonblank (lines : list str) : list str :=
  filter (fun l => negb (PyStr.is_empty l)) (map PyStr.strip lines).

Definition lines_read (text : str) : list str :=
  nonblank (PyStr.split PyStr.newline text).

(** the value of [coordinates] when the loop ends: the vertices read from
    the input, before the count is checked and the polygon closed *)
Definition input_vertices (text : str) : result (list Coord) :=
  read_lines (PyStr.split PyStr.newline (PyStr.strip text)) [].

(** [line] is a valid [lat,lon] line and [c] is its coordinate *)
Definition reads_as (line : str) (c : Coord) : Prop :=
  parse_line line = Ok (Some c).

(** the configured bounding region *)
Definition in_region (c : Coord) : Prop :=
  lat_in_range (fst c) = true /\ lon_in_range (snd c) = true.

Definition swap (c : Coord) : Coord := (snd c, fst c).

(** the first and the last of the coordinates differ (as [!=] sees it) *)
Definition ends_differ (coords : list Coord) : bool :=
  match coords, rev coords with
  | first :: _, last :: _ => coord_ne first last
  | _, _ => false
  end.

(** the first and the last of the lines read are the same line *)
Definition closed_input (text : str) : Prop :=
  hd [] (lines_read text) = last (lines_read text) [].

(** exactly one separator, with a token on each side of it *)
Definition well_separated (line : str) : Prop :=
  exists lat_str lon_str,
    PyStr.split PyStr.comma line = [lat_str; lon_str] /\
    PyStr.strip lat_str <> [] /\ PyStr.strip lon_str <> [].

(** the number of separators in a line *)
Definition count_sep (sep : ascii) (s : str) : nat :=
  List.length (filter (fun c => ascii_eqb c sep) s).

(** [f'] is [f] but for the text of the summary *)
Definition same_settings (f f' : Form) : Prop :=
  (region_var f' = region_var f) /\
  (data_type_var f' = data_type_var f) /\
  (search_mode_var f' = search_mode_var f) /\
  (custom_terms_var f' = custom_terms_var f) /\
  (format_var f' = format_var f) /\
  (max_datasets_var f' = max_datasets_var f) /\
  (output_dir_var f' = output_dir_var f) /\
  (precise_filtering_var f' = precise_filtering_var f) /\
  (preview_mode_var f' = preview_mode_var f) /\
  (coords_text f' = coords_text f).

(** [line] is a full line of [text], after the first *)
Definition has_line (line text : str) : Prop :=
  exists above below,
    text = above ++ PyStr.newline :: line ++ PyStr.newline :: below.

(** ** Sample inputs *)
Module Examples.

Definition lines_text (lines : list str) : str :=
  PyStr.join [PyStr.newline] lines.

(** the coordinate [[lat, lon]] of two integers *)
Definition vertex (lat lon : Z) : Coord :=
  (PyFloat.of_int lat, PyFloat.of_int lon).

(** three vertices, the ring left open *)
Definition open_triangle : str :=
  lines_text [txt "-21.0,139.0"; txt "-21.0,141.0"; txt "-20.0,141.0"].

(** what [load_example_coords] puts in the widget, as the widget returns
    it: a closed ring of five lines and a final newline *)
Definition closed_ring : str :=
  lines_text [txt "-21.0,139.0"; txt "-21.0,141.0"; txt "-20.0,141.0";
              txt "-20.0,139.0"; txt "-21.0,139.0"] ++ [PyStr.newline].

(** a ring whose last line spells the first vertex differently *)
Definition respelled_ring : str :=
  lines_text [txt "-21.0,139.0"; txt "-21.0,141.0"; txt "-20.0,141.0";
              txt "-21,139"].

Definition same_point_thrice : str :=
  lines_text [txt "-21.0,139.0"; txt "-21.0,139.0"; txt "-21.0,139.0"].

Definition two_lines : str :=
  lines_text [txt "-21.0,139.0"; txt "-21.0,141.0"].

Definition missing_separator : str :=
  lines_text [txt "-21.0,139.0"; txt "-21.0 139.0"; txt "-20.0,141.0"].

Definition spaced_out : str :=
  lines_text [txt "  "; txt "-21.0,139.0"; txt ""; txt " -21.0 , 141.0 ";
              txt "-20.0,141.0"; txt " "].

Definition sample_form : Form :=
  {| region_var := txt "Custom Polygon";
     data_type_var := Mining;
     search_mode_var := txt "suggested";
     custom_terms_var := txt "copper gold mining";
     format_var := txt "All Formats (Recommended)";
     max_datasets_var := txt "20";
     output_dir_var := txt "gsq_polygon_data";
     precise_filtering_var := true;
     preview_mode_var := false;
     coords_text := two_lines;
     summary_text := [] |}.

End Examples.

(** ** [repr] of floats and strings, and [int(s)]

    These built-ins are used by the handlers below; like [float(s)] they are
    written out after the language reference. *)
Module PyRepr.
Import PyFloat.

(** the number of decimal digits of a positive integer *)
Fixpoint count_digits (fuel : nat) (i : Z) : Z :=
  match fuel with
  | O => 0
  | S f => if (i <? 10)%Z then 1 else (1 + count_digits f (i / 10))%Z
  end.

(** the least [k >= 1] with [n * 10^k >= d], for [0 < n < d] *)
Fixpoint shift_to_unit (fuel : nat) (n d : Z) : Z :=
  match fuel with
  | O => 1
  | S f => if (d <=? n * 10)%Z then 1 else (1 + shift_to_unit f (n * 10) d)%Z
  end.

(** the decimal point of [n/d]: [10^(decpt-1) <= n/d < 10^decpt] *)
Definition decimal_point (n d : Z) : Z :=
  if (d <=? n)%Z then count_digits 400 (n / d)
  else (1 - shift_to_unit 400 n d)%Z.

Definition next_up (q k decpt : Z) : Z * Z :=
  if (q + 1 =? 10 ^ k)%Z then (1, decpt + 1)%Z else (q + 1, decpt)%Z.

(** the digits and the decimal point of the shortest decimal, of [k] digits
    or more, that [float] reads back as [x = n/d]; of the two neighbours of
    [x] with that many digits, the one that reads back, and the closer one
    when both do *)
Fixpoint shortest (fuel : nat) (k : Z) (x : float) (n d decpt : Z) : Z * Z :=
  let s := (k - decpt)%Z in
  let ns := if (0 <=? s)%Z then (n * 10 ^ s)%Z else n in
  let ds := if (0 <=? s)%Z then d else (d * 10 ^ (- s))%Z in
  let q := (ns / ds)%Z in
  let r := (ns mod ds)%Z in
  let back c := eqb (decimal_value false c (decpt - k)) x in
  let lo := back q in
  let hi := back (q + 1)%Z in
  let nearest :=
    match (2 * r ?= ds)%Z with
    | Lt => (q, decpt)
    | Gt => next_up q k decpt
    | Eq => if Z.odd q then next_up q k decpt else (q, decpt)
    end in
  match fuel with
  | O => nearest
  | S f =>
      if lo && hi then nearest
      else if lo then (q, decpt)
      else if hi then next_up q k decpt
      else shortest f (k + 1) x n d decpt
  end.

Fixpoint drop_zeros (fuel : nat) (q : Z) : Z :=
  match fuel with
  | O => q
  | S f => if (q mod 10 =? 0)%Z then drop_zeros f (q / 10) else q
  end.

Definition zeros (k : Z) : str := repeat "0"%char (Z.to_nat k).

(** the text of a positive finite float with digits [ds] and decimal point
    [decpt]: the exponent form when [decpt <= -4] or [decpt > 16], with an
    exponent of two digits at least; else the plain form, with [.0] after an
    integer *)
Definition layout (ds : str) (decpt : Z) : str :=
  let nd := Z.of_nat (List.length ds) in
  if (decpt <=? -4)%Z || (16 <? decpt)%Z then
    let e := (decpt - 1)%Z in
    let mantissa :=
      match ds with
      | d1 :: ((_ :: _) as rest) => d1 :: "."%char :: rest
      | _ => ds
      end in
    mantissa ++ txt "e" ++ (if (e <? 0)%Z then txt "-" else txt "+")
      ++ (if (Z.abs e <? 10)%Z then txt "0" else []) ++ str_of_Z (Z.abs e)
  else if (decpt <=? 0)%Z then txt "0." ++ zeros (- decpt) ++ ds
  else if (decpt <? nd)%Z
  then firstn (Z.to_nat decpt) ds ++ txt "." ++ skipn (Z.to_nat decpt) ds
  else ds ++ zeros (decpt - nd) ++ txt ".0".

(** [repr(x)] of a float, which is also [str(x)] and [f"{x}"] *)
Definition float_repr (x : float) : str :=
  match x with
  | S754_nan => txt "nan"
  | S754_infinity s => if s then txt "-inf" else txt "inf"
  | S754_zero s => if s then txt "-0.0" else txt "0.0"
  | S754_finite s m e =>
      let n := if (0 <=? e)%Z then (Zpos m * 2 ^ e)%Z else Zpos m in
      let d := if (0 <=? e)%Z then 1%Z else (2 ^ (- e))%Z in
      let '(q, decpt) :=
        shortest 16 1 (S754_finite false m e) n d (decimal_point n d) in
      (if s then txt "-" else []) ++ layout (str_of_Z (drop_zeros 20 q)) decpt
  end.

(** [repr(s)] of a string: in single quotes, or in double quotes when the
    string holds a single quote and no double quote; the quote, the
    backslash, and the characters that do not print are escaped *)
Definition hex_digit (n : N) : ascii :=
  ascii_of_N (if (n <? 10)%N then 48 + n else 87 + n).

Definition printable (c : ascii) : bool :=
  let n := N_of_ascii c in
  ((32 <=? n) && (n <? 127) || (161 <=? n) && negb (n =? 173))%N.

Definition escape (quote c : ascii) : str :=
  if ascii_eqb c quote || ascii_eqb c "\"%char then ["\"%char; c]
  else if ascii_eqb c (ascii_of_N 9) then txt "\t"
  else if ascii_eqb c (ascii_of_N 10) then txt "\n"
  else if ascii_eqb c (ascii_of_N 13) then txt "\r"
  else if printable c then [c]
  else let n := N_of_ascii c in
       ["\"%char; "x"%char; hex_digit (n / 16); hex_digit (n mod 16)].

Definition single_quote : ascii := ascii_of_N 39.
Definition double_quote : ascii := ascii_of_N 34.

Definition str_repr (s : str) : str :=
  let quote :=
    if PyStr.contains single_quote s && negb (PyStr.contains double_quote s)
    then double_quote else single_quote in
  quote :: List.concat (map (escape quote) s) ++ [quote].

End PyRepr.

Module PyInt.
Import PyStr PyFloat.

(** the default of [sys.get_int_max_str_digits()] *)
Definition int_max_str_digits : nat := 4300.

Inductive IntError : Type :=
| InvalidLiteral (s : str)
    (* f"invalid literal for int() with base 10: {s!r}" *)
| ExceedsLimit (digits : nat).
    (* "Exceeds the limit (4300 digits) for integer string conversion ..." *)

(** the scan of the digits: the digits read, underscores dropped, and what
    follows them.  [None] when two underscores meet or when an underscore is
    not followed by a digit.  [after_underscore] tells that the character
    before [s] is an underscore. *)
Fixpoint scan (after_underscore : bool) (s : str) : option (str * str) :=
  match s with
  | c :: r =>
      if ascii_eqb c underscore then
        if after_underscore then None else scan true r
      else if is_digit c then
        match scan false r with
        | Some (ds, rest) => Some (c :: ds, rest)
        | None => None
        end
      else if after_underscore then None else Some ([], s)
  | [] => if after_underscore then None else Some ([], [])
  end.

(** [int(s)]: surrounding white space, an optional sign, and decimal digits
    that single underscores may separate.  The digits are counted, and the
    limit checked, before what follows them is looked at. *)
Definition of_str (s : str) : IntError + Z :=
  let '(neg, body) := take_sign (trim s) in
  match body with
  | c :: _ =>
      if ascii_eqb c underscore then inl (InvalidLiteral s)
      else
        match scan false body with
        | Some (ds, rest) =>
            if (int_max_str_digits <? List.length ds)%nat
            then inl (ExceedsLimit (List.length ds))
            else
              match ds, rest with
              | _ :: _, [] => inr (cond_Zopp neg (digits_value ds))
              | _, _ => inl (InvalidLiteral s)
              end
        | None => inl (InvalidLiteral s)
        end
  | [] => inl (InvalidLiteral s)
  end.

(** [str(e)]; the literal is printed with ["%.200R"], the first 200
    characters of its [repr] *)
Definition error_text (e : IntError) : str :=
  match e with
  | InvalidLiteral s =>
      txt "invalid literal for int() with base 10: "
        ++ firstn 200 (PyRepr.str_repr s)
  | ExceedsLimit digits =>
      txt "Exceeds the limit (4300 digits) for integer string conversion: "
        ++ txt "value has " ++ str_of_Z (Z.of_nat digits)
        ++ txt " digits; use sys.set_int_max_str_digits() "
        ++ txt "to increase the limit"
  end.

End PyInt.

(** ** The window: regions, message boxes and the download controls *)

(** a float literal of the source *)
Definition literal (s : string) : PyFloat.float :=
  match PyFloat.of_str (txt s) with
  | Some x => x
  | None => S754_nan
  end.

Definition point (lat lon : string) : Coord := (literal lat, literal lon).

(** an entry of [self.predefined_regions]; [None] is the [None] of the
    source *)
Record RegionInfo : Type := {
  description : str;
  coords : option (list Coord)
}.

(** [self.predefined_regions], in the order of the dictionary *)
Definition predefined_regions : list (str * RegionInfo) :=
  [ (txt "Mount Isa Mineral Province",
     {| description := txt "Major copper, lead, zinc mining region";
        coords := Some [point "-21.0" "139.0"; point "-21.0" "141.0";
                        point "-20.0" "141.0"; point "-20.0" "139.0";
                        point "-21.0" "139.0"] |});
    (txt "Bowen Basin Coal Region",
     {| description := txt "Major coal mining and sedimentary basin";
        coords := Some [point "-23.0" "147.0"; point "-23.0" "150.5";
                        point "-20.0" "150.5"; point "-20.0" "147.0";
                        point "-23.0" "147.0"] |});
    (txt "Brisbane Metropolitan Region",
     {| description := txt "Urban geology and environmental data";
        coords := Some [point "-27.8" "152.5"; point "-27.8" "153.5";
                        point "-27.0" "153.5"; point "-27.0" "152.5";
                        point "-27.8" "152.5"] |});
    (txt "Cairns Region",
     {| description := txt "Tropical geology and mineral exploration";
        coords := Some [point "-17.2" "145.0"; point "-17.2" "146.0";
                        point "-16.5" "146.0"; point "-16.5" "145.0";
                        point "-17.2" "145.0"] |});
    (txt "Great Barrier Reef Catchment",
     {| description := txt "Environmental and marine geological data";
        coords := Some [point "-25.0" "145.0"; point "-25.0" "154.0";
                        point "-10.0" "154.0"; point "-10.0" "145.0";
                        point "-25.0" "145.0"] |});
    (txt "Custom Polygon",
     {| description := txt "Enter your own coordinates";
        coords := None |}) ].

(** [d[key]] on a dictionary with string keys; [None] stands for the
    [KeyError] *)
Fixpoint lookup {V : Type} (key : str) (d : list (str * V)) : option V :=
  match d with
  | [] => None
  | (k, v) :: rest => if PyStr.str_eqb key k then Some v else lookup key rest
  end.

(** ['\n'.join([f"{coord[0]},{coord[1]}" for coord in coords])] *)
Definition coords_lines (coords : list Coord) : str :=
  PyStr.join [PyStr.newline]
    (map (fun coord =>
            PyRepr.float_repr (fst coord) ++ txt ","
              ++ PyRepr.float_repr (snd coord))
         coords).

(** what [get(1.0, tk.END)] returns once [delete(1.0, tk.END)] and
    [insert(1.0, content)] have run: the content and the newline that ends a
    Tk text widget *)
Definition widget_text (content : str) : str := content ++ [PyStr.newline].

Inductive WidgetState : Type := NORMAL | DISABLED.

Inductive BoxKind : Type := ShowInfo | ShowWarning | ShowError.

(** a call of [messagebox.showinfo], [showwarning] or [showerror] *)
Record MessageBox : Type := {
  box_kind : BoxKind;
  box_title : str;
  box_text : str
}.

(** the arguments of the worker thread that [start_download] creates *)
Record Thread : Type := {
  polygon_coords : list Coord;
  max_datasets : Z;
  output_dir : str
}.

(** the window: the form, the widgets of the download tab, and what the
    handlers did that is not kept in a widget (the threads started and the
    boxes shown, oldest first) *)
Record Window : Type := {
  form : Form;
  region_desc_var : str;
  download_button : WidgetState;
  cancel_button : WidgetState;
  progress_bar_running : bool;
  progress_var : str;
  results_text : str;
  download_thread : option Thread;
  threads_started : list Thread;
  boxes_shown : list MessageBox
}.

Definition set_form (w : Window) (f : Form) : Window :=
  {| form := f;
     region_desc_var := region_desc_var w;
     download_button := download_button w;
     cancel_button := cancel_button w;
     progress_bar_running := progress_bar_running w;
     progress_var := progress_var w;
     results_text := results_text w;
     download_thread := download_thread w;
     threads_started := threads_started w;
     boxes_shown := boxes_shown w |}.

Definition set_region_desc (w : Window) (s : str) : Window :=
  {| form := form w;
     region_desc_var := s;
     download_button := download_button w;
     cancel_button := cancel_button w;
     progress_bar_running := progress_bar_running w;
     progress_var := progress_var w;
     results_text := results_text w;
     download_thread := download_thread w;
     threads_started := threads_started w;
     boxes_shown := boxes_shown w |}.

(** the three widgets that [start_download] and [reset_download_state]
    configure *)
Definition set_controls (w : Window) (download cancel : WidgetState)
    (running : bool) : Window :=
  {| form := form w;
     region_desc_var := region_desc_var w;
     download_button := download;
     cancel_button := cancel;
     progress_bar_running := running;
     progress_var := progress_var w;
     results_text := results_text w;
     download_thread := download_thread w;
     threads_started := threads_started w;
     boxes_shown := boxes_shown w |}.

Definition set_progress_var (w : Window) (s : str) : Window :=
  {| form := form w;
     region_desc_var := region_desc_var w;
     download_button := download_button w;
     cancel_button := cancel_button w;
     progress_bar_running := progress_bar_running w;
     progress_var := s;
     results_text := results_text w;
     download_thread := download_thread w;
     threads_started := threads_started w;
     boxes_shown := boxes_shown w |}.

Definition set_results_text (w : Window) (s : str) : Window :=
  {| form := form w;
     region_desc_var := region_desc_var w;
     download_button := download_button w;
     cancel_button := cancel_button w;
     progress_bar_running := progress_bar_running w;
     progress_var := progress_var w;
     results_text := s;
     download_thread := download_thread w;
     threads_started := threads_started w;
     boxes_shown := boxes_shown w |}.

(** [self.download_thread = threading.Thread(...)] and [.start()] *)
Definition start_thread (w : Window) (t : Thread) : Window :=
  {| form := form w;
     region_desc_var := region_desc_var w;
     download_button := download_button w;
     cancel_button := cancel_button w;
     progress_bar_running := progress_bar_running w;
     progress_var := progress_var w;
     results_text := results_text w;
     download_thread := Some t;
     threads_started := threads_started w ++ [t];
     boxes_shown := boxes_shown w |}.

Definition show_box (w : Window) (k : BoxKind) (title text : str) : Window :=
  {| form := form w;
     region_desc_var := region_desc_var w;
     download_button := download_button w;
     cancel_button := cancel_button w;
     progress_bar_running := progress_bar_running w;
     progress_var := progress_var w;
     results_text := results_text w;
     download_thread := download_thread w;
     threads_started := threads_started w;
     boxes_shown :=
       boxes_shown w
         ++ [{| box_kind := k; box_title := title; box_text := text |}] |}.

(** the text widget of the coordinates, set to [content] *)
Definition set_coords_text (f : Form) (content : str) : Form :=
  {| region_var := region_var f;
     data_type_var := data_type_var f;
     search_mode_var := search_mode_var f;
     custom_terms_var := custom_terms_var f;
     format_var := format_var f;
     max_datasets_var := max_datasets_var f;
     output_dir_var := output_dir_var f;
     precise_filtering_var := precise_filtering_var f;
     preview_mode_var := preview_mode_var f;
     coords_text := widget_text content;
     summary_text := summary_text f |}.

(** [str(e)] with the printers of the interpreter *)
Definition error_message (e : Exception) : str :=
  message PyRepr.float_repr PyRepr.str_repr e.

(** [GSQDownloaderGUI.on_region_change]; [None] stands for the [KeyError] of
    a region name that is not in the dictionary *)
Definition on_region_change (w : Window) : option Window :=
  let region_name := region_var (form w) in
  match lookup region_name predefined_regions with
  | None => None
  | Some region_info =>
      let w1 := set_region_desc w (description region_info) in
      if negb (PyStr.str_eqb region_name (txt "Custom Polygon"))
      then
        match coords region_info with
        | Some ((_ :: _) as cs) =>
            Some (set_form w1 (set_coords_text (form w1) (coords_lines cs)))
        | _ => Some w1
        end
      else Some w1
  end.

(** [GSQDownloaderGUI.load_example_coords] *)
Definition load_example_coords (w : Window) : Window :=
  let example_coords :=
    [point "-21.0" "139.0"; point "-21.0" "141.0"; point "-20.0" "141.0";
     point "-20.0" "139.0"; point "-21.0" "139.0"] in
  set_form w (set_coords_text (form w) (coords_lines example_coords)).

(** [GSQDownloaderGUI.clear_coords] *)
Definition clear_coords (w : Window) : Window :=
  set_form w (set_coords_text (form w) []).

(** [GSQDownloaderGUI.reset_download_state] *)
Definition reset_download_state (w : Window) : Window :=
  set_controls w NORMAL DISABLED false.

Section Handlers.
(** the two pictographs of the message boxes, outside the alphabet of
    [str] *)
Variables check_mark cross_mark : str.

(** [GSQDownloaderGUI.validate_coords] *)
Definition validate_coords (w : Window) : Window :=
  match parse_coordinates (coords_text (form w)) with
  | Ok coords =>
      if (3 <=? List.length coords)%nat
      then show_box w ShowInfo (txt "Validation")
             (check_mark ++ txt " Valid polygon with "
                ++ str_of_Z (Z.of_nat (List.length coords))
                ++ txt " vertices")
      else show_box w ShowWarning (txt "Validation")
             (cross_mark ++ txt " Need at least 3 coordinates for a polygon")
  | Raise e =>
      show_box w ShowError (txt "Validation Error")
        (cross_mark ++ txt " Invalid coordinates: " ++ error_message e)
  end.

(** what the [try] block of [start_download] can raise *)
Inductive StartError : Type :=
| BadCoordinates (e : Exception)
| BadMaxDatasets (e : PyInt.IntError).

Definition start_error_text (e : StartError) : str :=
  match e with
  | BadCoordinates e' => error_message e'
  | BadMaxDatasets e' => PyInt.error_text e'
  end.

(** the [try] block of [start_download] *)
Definition start_download_body (w : Window) : StartError + Window :=
  match parse_coordinates (coords_text (form w)) with
  | Raise e => inl (BadCoordinates e)
  | Ok coords_latlon =>
      let coords_lonlat := convert_latlon_to_lonlat coords_latlon in
      match PyInt.of_str (max_datasets_var (form w)) with
      | inl e => inl (BadMaxDatasets e)
      | inr max =>
          let dir := output_dir_var (form w) in
          if PyStr.is_empty dir
          then inr (show_box w ShowError (txt "Error")
                      (txt "Please select an output directory"))
          else
            let w1 := set_controls w DISABLED NORMAL true in
            inr (start_thread w1
                   {| polygon_coords := coords_lonlat;
                      max_datasets := max;
                      output_dir := dir |})
      end
  end.

(** [GSQDownloaderGUI.start_download] *)
Definition start_download (w : Window) : Window :=
  match start_download_body w with
  | inr w' => w'
  | inl e =>
      reset_download_state
        (show_box w ShowError (txt "Error")
           (txt "Failed to start download: " ++ start_error_text e))
  end.

(** [GSQDownloaderGUI.download_error] *)
Definition download_error (error_msg : str) (w : Window) : Window :=
  let w1 := reset_download_state w in
  let w2 := set_results_text w1 (cross_mark ++ txt " Error: " ++ error_msg) in
  let w3 := set_progress_var w2 (txt "Error: " ++ error_msg) in
  show_box w3 ShowError (txt "Download Error")
    (txt "Download failed: " ++ error_msg).

(** [GSQDownloaderGUI.cancel_download]; [alive] is what
    [self.download_thread.is_alive()] answers *)
Definition cancel_download (alive : bool) (w : Window) : Window :=
  let w1 :=
    match download_thread w with
    | Some _ =>
        if alive
        then show_box w ShowWarning (txt "Cancel")
               (txt "Download cancellation requested. "
                  ++ txt "The process may continue in the background.")
        else w
    | None => w
    end in
  set_progress_var (reset_download_state w1) (txt "Download cancelled").

(** what [download_complete] makes of [results].  The dictionary comes from
    the client, which is not part of the repository, and the text that the
    handler builds from its datasets is kept as it comes out:
    - [Unsuccessful error]: [results.get('success')] is false, and [error]
      is the text of [results.get('error', 'Unknown error')];
    - [Displayed result_text]: the text built for the preview or for the
      download;
    - [Malformed]: the handler raises on the way, on a missing key or on a
      value of another type; the reset is done by then. *)
Inductive Results : Type :=
| Unsuccessful (error : str)
| Displayed (result_text : str)
| Malformed.

(** [GSQDownloaderGUI.download_complete] *)
Definition download_complete (results : Results) (w : Window) : Window :=
  let w1 := reset_download_state w in
  match results with
  | Unsuccessful error =>
      set_results_text w1 (cross_mark ++ txt " Download failed: " ++ error)
  | Displayed result_text =>
      let w2 := set_results_text w1 result_text in
      let w3 :=
        set_progress_var w2 (txt "Download completed successfully!") in
      show_box w3 ShowInfo (txt "Success")
        (txt "Download completed! Check the Results tab for details.")
  | Malformed => w1
  end.

(** the pictographs of the summary *)
Variables clipboard pushpin microscope gear : str.

(** what happens to the window: the commands of its buttons and of the
    region list, and what the worker posts to the window when it ends,
    [download_complete] or [download_error] *)
Inductive Event : Type :=
| RegionSelected
| LoadExampleClicked
| ClearClicked
| ValidateClicked
| UpdateSummaryClicked
| StartDownloadClicked
| CancelClicked (alive : bool)
| WorkerFailed (error_msg : str)
| WorkerCompleted (results : Results).

(** the handler of an event.  A click on a disabled button does nothing.
    An exception that leaves a handler is reported by Tk and the window
    stays as the handler left it: as it was, for [on_region_change], which
    fails before it changes anything. *)
Definition handle (ev : Event) (w : Window) : Window :=
  match ev with
  | RegionSelected =>
      match on_region_change w with
      | Some w' => w'
      | None => w
      end
  | LoadExampleClicked => load_example_coords w
  | ClearClicked => clear_coords w
  | ValidateClicked => validate_coords w
  | UpdateSummaryClicked =>
      match update_summary clipboard pushpin microscope gear
              PyRepr.float_repr PyRepr.str_repr (form w) with
      | Ok f => set_form w f
      | Raise _ => w
      end
  | StartDownloadClicked =>
      match download_button w with
      | NORMAL => start_download w
      | DISABLED => w
      end
  | CancelClicked alive =>
      match cancel_button w with
      | NORMAL => cancel_download alive w
      | DISABLED => w
      end
  | WorkerFailed error_msg => download_error error_msg w
  | WorkerCompleted results => download_complete results w
  end.

Definition run (events : list Event) (w : Window) : Window :=
  fold_left (fun w' ev => handle ev w') events w.

End Handlers.

(** the search query that [download_worker] builds *)
Definition search_query (f : Form) : str :=
  let search_mode := search_mode_var f in
  if PyStr.str_eqb search_mode (txt "suggested")
  then PyStr.join (txt " OR ") (firstn 3 (data_type_terms (data_type_var f)))
  else if PyStr.str_eqb search_mode (txt "custom")
  then
    let custom_terms := PyStr.strip (custom_terms_var f) in
    if PyStr.is_empty custom_terms then txt "*:*"
    else PyStr.join (txt " OR ") (PyStr.split_ws custom_terms)
  else txt "*:*".

(** ** Notions used to state the further properties *)

(** the causes for which the [try] block refuses a line that holds a
    separator *)
Definition line_cause (cause : Exception) : Prop :=
  cause = TooManyValues \/
  (exists s, cause = CouldNotConvert s) \/
  (exists lat, cause = LatitudeOutside lat /\ lat_in_range lat = false) \/
  (exists lon, cause = LongitudeOutside lon /\ lon_in_range lon = false).

(** neither white space nor the separator *)
Definition plain (c : ascii) : bool :=
  negb (PyStr.is_space c) && negb (ascii_eqb c PyStr.comma).

(** [float(repr(x)) == x], as a number read back bit for bit *)
Definition reads_back (x : PyFloat.float) : Prop :=
  PyFloat.of_str (PyRepr.float_repr x) = Some x.

(** the polygon given to a worker: three points or more in
    longitude-latitude order, inside the region, the last equal to the
    first; and a directory to write to *)
Definition good_thread (t : Thread) : Prop :=
  3 <= List.length (polygon_coords t) /\
  Forall (fun p => lon_in_range (fst p) = true /\ lat_in_range (snd p) = true)
    (polygon_coords t) /\
  ends_differ (polygon_coords t) = false /\
  output_dir t <> [].

(** the two settings of the download controls *)
Definition controls_ready (w : Window) : Prop :=
  download_button w = NORMAL /\ cancel_button w = DISABLED /\
  progress_bar_running w = false.

Definition controls_busy (w : Window) : Prop :=
  download_button w = DISABLED /\ cancel_button w = NORMAL /\
  progress_bar_running w = true.

Definition consistent (w : Window) : Prop :=
  (controls_ready w \/ controls_busy w) /\
  (controls_busy w -> download_thread w <> None) /\
  Forall good_thread (threads_started w) /\
  match download_thread w with
  | Some t => exists earlier, threads_started w = earlier ++ [t]
  | None => threads_started w = []
  end.

(** an event whose handler resets the download controls: the cancel button,
    and the end of a worker, completed or failed *)
Definition releases (ev : Event) : bool :=
  match ev with
  | CancelClicked _ | WorkerFailed _ | WorkerCompleted _ => true
  | _ => false
  end.

(** the controls are ready and [n] workers at most were started, or they
    are busy and one more at most was *)
Definition started_at_most (n : nat) (w : Window) : Prop :=
  (controls_ready w /\ List.length (threads_started w) <= n) \/
  (controls_busy w /\ List.length (threads_started w) <= n + 1).

(** the controls and the workers started, relative to the workers [base]
    that were started before *)
Definition one_more (base : list Thread) (w : Window) : Prop :=
  (controls_ready w /\ threads_started w = base) \/
  (controls_busy w /\ exists t, threads_started w = base ++ [t]).

(** ** More sample inputs *)
Module Samples.

Definition carriage_return : ascii := ascii_of_N 13.

(** three valid lines, a latitude out of range, and a line without
    separator *)
Definition late_errors : str :=
  Examples.lines_text
    [txt "-21.0,139.0"; txt "-21.0,141.0"; txt "-20.0,141.0";
     txt "-30.0,139.0"; txt "-21.0 139.0"].

(** the window as [__init__] leaves it, but for the summary and the
    output directory, which depends on the working directory *)
Definition ready_window : Window :=
  {| form :=
       {| region_var := txt "Mount Isa Mineral Province";
          data_type_var := AllDataTypes;
          search_mode_var := txt "suggested";
          custom_terms_var := txt "copper gold mining";
          format_var := txt "All Formats (Recommended)";
          max_datasets_var := txt "20";
          output_dir_var := txt "gsq_polygon_data";
          precise_filtering_var := true;
          preview_mode_var := false;
          coords_text := Examples.closed_ring;
          summary_text := [] |};
     region_desc_var := txt "Major copper, lead, zinc mining region";
     download_button := NORMAL;
     cancel_button := DISABLED;
     progress_bar_running := false;
     progress_var := txt "Ready to start download";
     results_text := [];
     download_thread := None;
     threads_started := [];
     boxes_shown := [] |}.

Definition with_region (w : Window) (name : str) : Window :=
  set_form w
    {| region_var := name;
       data_type_var := data_type_var (form w);
       search_mode_var := search_mode_var (form w);
       custom_terms_var := custom_terms_var (form w);
       format_var := format_var (form w);
       max_datasets_var := max_datasets_var (form w);
       output_dir_var := output_dir_var (form w);
       precise_filtering_var := precise_filtering_var (form w);
       preview_mode_var := preview_mode_var (form w);
       coords_text := coords_text (form w);
       summary_text := summary_text (form w) |}.

(** a start, a cancellation while the worker runs, and a second start *)
Definition restart : list Event :=
  [StartDownloadClicked; ValidateClicked; CancelClicked true;
   StartDownloadClicked].

(** two clicks on the start button, the end of the worker, and two more
    clicks *)
Definition two_downloads : list Event :=
  [StartDownloadClicked; StartDownloadClicked;
   WorkerCompleted (Displayed (txt "DOWNLOAD COMPLETE!"));
   StartDownloadClicked; ValidateClicked; StartDownloadClicked].

(** a form whose coordinates are refused: a latitude out of range *)
Definition refused_form : Form :=
  set_summary_text
    (set_coords_text Examples.sample_form
       (Examples.lines_text
          [txt "-21.0,139.0"; txt "-30.0,139.0"; txt "-20.0,141.0"]))
    (txt "old summary").

End Samples.

(** ** Facts about [strip] and [split] *)
Module PyStrFacts.
Import PyStr.

Lemma newline_is_space : is_space newline = true.
Proof. reflexivity. Qed.

Lemma comma_not_space : is_space comma = false.
Proof. reflexivity. Qed.

Lemma all_space_app a b : all_space (a ++ b) = all_space a && all_space b.
Proof. apply forallb_app. Qed.

Lemma all_space_rev s : all_space (rev s) = all_space s.
Proof.
  induction s as [|c r IH]; simpl; [reflexivity|].
  rewrite all_space_app, IH. simpl. rewrite andb_true_r. apply andb_comm.
Qed.

Lemma lstrip_nil_iff s : lstrip s = [] <-> all_space s = true.
Proof.
  induction s as [|c r IH]; simpl; [tauto|].
  destruct (is_space c); simpl; [exact IH|].
  split; discriminate.
Qed.

Lemma lstrip_all_space s : all_space s = true -> lstrip s = [].
Proof. apply lstrip_nil_iff. Qed.

Lemma lstrip_app a b :
  lstrip (a ++ b) = if all_space a then lstrip b else lstrip a ++ b.
Proof.
  induction a as [|c r IH]; simpl; [reflexivity|].
  destruct (is_space c); simpl; [exact IH | reflexivity].
Qed.

Lemma lstrip_idem s : lstrip (lstrip s) = lstrip s.
Proof.
  induction s as [|c r IH]; simpl; [reflexivity|].
  destruct (is_space c) eqn:E; [exact IH|]. simpl. now rewrite E.
Qed.

(** a string that does not start with a space is left alone *)
Lemma lstrip_head c r : is_space c = false -> lstrip (c :: r) = c :: r.
Proof. intros E. simpl. now rewrite E. Qed.

Lemma rstrip_nil_iff s : rstrip s = [] <-> all_space s = true.
Proof.
  unfold rstrip. rewrite <- (all_space_rev s), <- lstrip_nil_iff.
  split; intros H.
  - apply (f_equal (@rev ascii)) in H. now rewrite rev_involutive in H.
  - now rewrite H.
Qed.

Lemma rstrip_cons c r :
  rstrip (c :: r) =
    if all_space r then (if is_space c then [] else [c])
    else c :: rstrip r.
Proof.
  unfold rstrip. simpl rev. rewrite lstrip_app, all_space_rev.
  destruct (all_space r).
  - simpl. now destruct (is_space c).
  - now rewrite rev_app_distr.
Qed.

Lemma strip_comm s : rstrip (lstrip s) = lstrip (rstrip s).
Proof.
  induction s as [|c r IH]; [reflexivity|].
  destruct (is_space c) eqn:E.
  - simpl lstrip at 1. rewrite E, rstrip_cons, E.
    destruct (all_space r) eqn:A.
    + rewrite (lstrip_all_space r A). reflexivity.
    + simpl. now rewrite E.
  - rewrite (lstrip_head c r E), rstrip_cons, E.
    destruct (all_space r); symmetry; now apply lstrip_head.
Qed.

Lemma strip_nil_iff s : strip s = [] <-> all_space s = true.
Proof.
  unfold strip. rewrite rstrip_nil_iff. split; intros H.
  - induction s as [|c r IH]; [reflexivity|]. simpl in *.
    destruct (is_space c) eqn:E; simpl; [now apply IH|].
    simpl in H. now rewrite E in H.
  - rewrite (lstrip_all_space s H). reflexivity.
Qed.

Lemma rstrip_idem s : rstrip (rstrip s) = rstrip s.
Proof.
  unfold rstrip. now rewrite rev_involutive, lstrip_idem.
Qed.

Lemma strip_idem s : strip (strip s) = strip s.
Proof.
  unfold strip.
  now rewrite <- (strip_comm (lstrip s)), lstrip_idem, rstrip_idem.
Qed.

Lemma strip_cons_space c s : is_space c = true -> strip (c :: s) = strip s.
Proof. intros E. unfold strip. simpl. now rewrite E. Qed.

Lemma is_empty_true s : is_empty s = true <-> s = [].
Proof. destruct s; simpl; split; congruence. Qed.

(** *** [split] *)

Lemma split_not_nil sep s : split sep s <> [].
Proof.
  destruct s as [|c r]; simpl; [discriminate|].
  destruct (ascii_eqb c sep); [discriminate|].
  destruct (split sep r); discriminate.
Qed.

Lemma split_cons sep c r :
  split sep (c :: r) =
    if ascii_eqb c sep then [] :: split sep r
    else (c :: hd [] (split sep r)) :: tl (split sep r).
Proof.
  simpl. destruct (ascii_eqb c sep); [reflexivity|].
  destruct (split sep r) eqn:E; [|reflexivity].
  now apply split_not_nil in E.
Qed.

Lemma split_hd_tl sep s : split sep s = hd [] (split sep s) :: tl (split sep s).
Proof.
  destruct (split sep s) eqn:E; [|reflexivity].
  now apply split_not_nil in E.
Qed.

Lemma split_app_sep sep a b :
  split sep (a ++ sep :: b) = split sep a ++ split sep b.
Proof.
  induction a as [|c r IH].
  - simpl. unfold ascii_eqb. now rewrite Ascii.eqb_refl.
  - rewrite <- app_comm_cons, !split_cons, IH.
    destruct (ascii_eqb c sep); [reflexivity|].
    rewrite (split_hd_tl sep r) at 1 2. reflexivity.
Qed.

Lemma split_no_sep sep s : contains sep s = false -> split sep s = [s].
Proof.
  induction s as [|c r IH]; simpl; [reflexivity|].
  destruct (ascii_eqb c sep); simpl; [discriminate|].
  intros H. now rewrite (IH H).
Qed.

Lemma split_length sep s :
  List.length (split sep s) = S (count_sep sep s).
Proof.
  unfold count_sep.
  induction s as [|c r IH]; [reflexivity|].
  rewrite split_cons. simpl filter.
  destruct (ascii_eqb c sep); simpl; [now rewrite IH|].
  rewrite <- IH. rewrite (split_hd_tl sep r) at 2. reflexivity.
Qed.

Lemma all_space_split s :
  all_space s = forallb all_space (split newline s).
Proof.
  induction s as [|c r IH]; [reflexivity|].
  rewrite split_cons.
  destruct (ascii_eqb c newline) eqn:E.
  - apply Ascii.eqb_eq in E. subst c. simpl. now rewrite IH.
  - simpl. rewrite IH, (split_hd_tl newline r) at 1. simpl.
    now rewrite andb_assoc.
Qed.

(** *** Counting separators *)

Lemma count_sep_lstrip sep s :
  is_space sep = false -> count_sep sep (lstrip s) = count_sep sep s.
Proof.
  intros N. unfold count_sep.
  induction s as [|c r IH]; simpl; [reflexivity|].
  destruct (is_space c) eqn:E; [|reflexivity].
  destruct (ascii_eqb c sep) eqn:Q; [|exact IH].
  apply Ascii.eqb_eq in Q. congruence.
Qed.

Lemma count_sep_rev sep s : count_sep sep (rev s) = count_sep sep s.
Proof. unfold count_sep. now rewrite filter_rev, length_rev. Qed.

Lemma count_sep_strip sep s :
  is_space sep = false -> count_sep sep (strip s) = count_sep sep s.
Proof.
  intros N. unfold strip, rstrip.
  now rewrite count_sep_rev, count_sep_lstrip, count_sep_rev,
    count_sep_lstrip.
Qed.

Lemma contains_count sep s :
  contains sep s = negb (count_sep sep s =? 0).
Proof.
  unfold contains, count_sep.
  induction s as [|c r IH]; simpl; [reflexivity|].
  destruct (ascii_eqb c sep); simpl; [reflexivity | exact IH].
Qed.

End PyStrFacts.

(** ** The lines of a text and the lines of its stripped form *)
Module LinesFacts.
Import PyStr PyStrFacts.

Lemma rstrip_cons_congr c h h' :
  rstrip h = rstrip h' -> rstrip (c :: h) = rstrip (c :: h').
Proof.
  intros H. rewrite !rstrip_cons, H.
  assert (A : all_space h = all_space h').
  { destruct (all_space h) eqn:A1, (all_space h') eqn:A2; trivial.
    - apply rstrip_nil_iff in A1. rewrite H in A1.
      apply rstrip_nil_iff in A1. congruence.
    - apply rstrip_nil_iff in A2. rewrite <- H in A2.
      apply rstrip_nil_iff in A2. congruence. }
  now rewrite A.
Qed.

(** stripping the text on the left only removes leading blank lines *)
Lemma map_lstrip_split t :
  exists k, map lstrip (split newline t)
            = repeat [] k ++ map lstrip (split newline (lstrip t)).
Proof.
  induction t as [|c r [k IH]]; [now exists 0|].
  simpl lstrip. destruct (is_space c) eqn:E; [|now exists 0].
  rewrite split_cons. destruct (ascii_eqb c newline).
  - exists (S k). simpl. now rewrite IH.
  - exists k. rewrite <- IH.
    destruct (split newline r) as [|h tl] eqn:S;
      [now apply split_not_nil in S|].
    simpl. now rewrite E.
Qed.

(** stripping it on the right only removes trailing blank lines *)
Lemma map_rstrip_split t :
  exists k, map rstrip (split newline t)
            = map rstrip (split newline (rstrip t)) ++ repeat [] k.
Proof.
  induction t as [|c r [k IH]]; [now exists 0|].
  rewrite rstrip_cons. destruct (all_space r) eqn:A.
  - assert (R : rstrip r = []) by now apply rstrip_nil_iff.
    rewrite R in IH. simpl in IH.
    rewrite split_cons. destruct (ascii_eqb c newline) eqn:E.
    + apply Ascii.eqb_eq in E. subst c. rewrite newline_is_space.
      exists (S k). simpl. now rewrite IH.
    + destruct (split newline r) as [|h tl] eqn:S;
        [now apply split_not_nil in S|].
      simpl in IH. injection IH as Hh Ht. exists k. simpl.
      rewrite Ht, rstrip_cons.
      apply rstrip_nil_iff in Hh. rewrite Hh.
      destruct (is_space c) eqn:Sc; [reflexivity|].
      simpl. rewrite E. simpl. rewrite rstrip_cons. simpl. now rewrite Sc.
  - rewrite !split_cons. destruct (ascii_eqb c newline).
    + exists k. simpl. now rewrite IH.
    + destruct (split newline r) as [|h tl] eqn:S;
        [now apply split_not_nil in S|].
      destruct (split newline (rstrip r)) as [|h' tl'] eqn:S';
        [now apply split_not_nil in S'|].
      simpl in IH. injection IH as Hh Ht.
      exists k. simpl. rewrite Ht. f_equal.
      now apply rstrip_cons_congr.
Qed.

Lemma nonblank_app a b : nonblank (a ++ b) = nonblank a ++ nonblank b.
Proof. unfold nonblank. now rewrite map_app, filter_app. Qed.

Lemma nonblank_blank_lines k : nonblank (repeat [] k) = [].
Proof. induction k; [reflexivity|exact IHk]. Qed.

Lemma nonblank_as_rstrip_lstrip ls :
  nonblank ls
  = filter (fun l => negb (is_empty l)) (map rstrip (map lstrip ls)).
Proof. unfold nonblank. now rewrite map_map. Qed.

Lemma nonblank_as_lstrip_rstrip ls :
  nonblank ls
  = filter (fun l => negb (is_empty l)) (map lstrip (map rstrip ls)).
Proof.
  unfold nonblank. rewrite map_map. f_equal. apply map_ext.
  intros l. apply strip_comm.
Qed.

Lemma filter_blank_prefix k (ls : list str) :
  filter (fun l => negb (is_empty l)) (repeat [] k ++ ls)
  = filter (fun l => negb (is_empty l)) ls.
Proof. induction k; [reflexivity|exact IHk]. Qed.

Lemma filter_blank_suffix k (ls : list str) :
  filter (fun l => negb (is_empty l)) (ls ++ repeat [] k)
  = filter (fun l => negb (is_empty l)) ls.
Proof.
  rewrite filter_app.
  replace (filter _ (repeat [] k)) with (@nil str);
    [apply app_nil_r|].
  induction k; [reflexivity|exact IHk].
Qed.

Lemma map_repeat_nil (f : str -> str) k :
  f [] = [] -> map f (repeat [] k) = repeat [] k.
Proof. intros H. induction k; simpl; [reflexivity|]. now rewrite H, IHk. Qed.

Lemma lines_read_lstrip t : lines_read (lstrip t) = lines_read t.
Proof.
  unfold lines_read. rewrite !nonblank_as_rstrip_lstrip.
  destruct (map_lstrip_split t) as [k ->].
  rewrite map_app, map_repeat_nil by reflexivity.
  now rewrite filter_blank_prefix.
Qed.

Lemma lines_read_rstrip t : lines_read (rstrip t) = lines_read t.
Proof.
  unfold lines_read. rewrite !nonblank_as_lstrip_rstrip.
  destruct (map_rstrip_split t) as [k ->].
  rewrite map_app, map_repeat_nil by reflexivity.
  now rewrite filter_blank_suffix.
Qed.

Lemma lines_read_strip t : lines_read (strip t) = lines_read t.
Proof. unfold strip. now rewrite lines_read_rstrip, lines_read_lstrip. Qed.

Lemma lines_read_nil_iff t : lines_read t = [] <-> all_space t = true.
Proof.
  unfold lines_read, nonblank. rewrite all_space_split.
  induction (split newline t) as [|l ls IH]; simpl; [tauto|].
  destruct (all_space l) eqn:A.
  - apply strip_nil_iff in A. rewrite A. simpl. exact IH.
  - destruct (strip l) eqn:S.
    + apply strip_nil_iff in S. congruence.
    + simpl. split; discriminate.
Qed.

Lemma lines_read_app_newline a b :
  lines_read (a ++ newline :: b) = lines_read a ++ lines_read b.
Proof. unfold lines_read. now rewrite split_app_sep, nonblank_app. Qed.

Lemma lines_read_blank ws : all_space ws = true -> lines_read ws = [].
Proof. apply lines_read_nil_iff. Qed.

(** a line without a newline that is not blank is read as its stripped
    form *)
Lemma lines_read_single l :
  contains newline l = false -> strip l <> [] -> lines_read l = [strip l].
Proof.
  intros N S. unfold lines_read. rewrite (split_no_sep _ _ N).
  unfold nonblank. simpl. destruct (strip l); [congruence|reflexivity].
Qed.

Lemma nonblank_In raw ls :
  In raw ls -> strip raw <> [] -> In (strip raw) (nonblank ls).
Proof.
  intros I S. unfold nonblank. apply filter_In. split.
  - now apply in_map.
  - destruct (strip raw); [congruence|reflexivity].
Qed.

Lemma nonblank_stripped l ls :
  In l (nonblank ls) -> strip l = l /\ l <> [].
Proof.
  unfold nonblank. intros I. apply filter_In in I as [I N].
  apply in_map_iff in I as [raw [<- _]]. split; [apply strip_idem|].
  intros E. now rewrite E in N.
Qed.

End LinesFacts.

(** ** Facts about float comparison *)
Module FloatFacts.
Import PyFloat.

(** [float] on a few strings: exact values, a value that is rounded, the
    separators and the exponent, overflow to infinity, the smallest
    subnormal on either side of its rounding boundary, and a latitude that
    rounds to the bound *)
Example float_minus_21 :
  of_str (txt "-21.0") = Some (S754_finite true (21 * 2 ^ 48) (-48)).
Proof. vm_compute. reflexivity. Qed.

Example float_one_tenth :
  of_str (txt "0.1") = Some (S754_finite false 7205759403792794 (-56)).
Proof. vm_compute. reflexivity. Qed.

Example float_underscores_exponent :
  of_str (txt " 1_0.2_5e1 ") = Some (S754_finite false (205 * 2 ^ 45) (-46)).
Proof. vm_compute. reflexivity. Qed.

Example float_overflow : of_str (txt "1e400") = Some (S754_infinity false).
Proof. vm_compute. reflexivity. Qed.

Example float_subnormal_boundary :
  of_str (txt "2.4703282292062328e-324") = Some (S754_finite false 1 (-1074))
  /\ of_str (txt "2.4703282292062327e-324") = Some (S754_zero false).
Proof. split; vm_compute; reflexivity. Qed.

Example float_rounds_to_bound :
  of_str (txt "-29.000000000000001") = Some (of_int (-29)).
Proof. vm_compute. reflexivity. Qed.

Example float_rejects :
  map of_str [txt ""; txt "."; txt "1e"; txt "1__0"; txt "_1"; txt "0x10";
              txt "1 2"; txt "--1"; txt "infin"]
  = repeat None 9.
Proof. vm_compute. reflexivity. Qed.

Lemma leb_right_not_nan a x : leb a x = true -> x <> S754_nan.
Proof.
  unfold leb, SFleb. intros H ->.
  destruct a; simpl in H; discriminate.
Qed.

Lemma eqb_refl_not_nan x : x <> S754_nan -> eqb x x = true.
Proof.
  unfold eqb, SFeqb. destruct x as [s|s| |s m e]; simpl; intros H.
  - reflexivity.
  - now destruct s.
  - congruence.
  - rewrite Z.compare_refl, Pos.compare_cont_refl. now destruct s.
Qed.

Lemma lat_in_range_not_nan x : lat_in_range x = true -> x <> S754_nan.
Proof.
  unfold lat_in_range. intros H. apply andb_prop in H as [H _].
  exact (leb_right_not_nan _ _ H).
Qed.

Lemma lon_in_range_not_nan x : lon_in_range x = true -> x <> S754_nan.
Proof.
  unfold lon_in_range. intros H. apply andb_prop in H as [H _].
  exact (leb_right_not_nan _ _ H).
Qed.

Lemma in_region_eq_self c : in_region c -> coord_ne c c = false.
Proof.
  intros [Hlat Hlon]. unfold coord_ne.
  rewrite (eqb_refl_not_nan _ (lat_in_range_not_nan _ Hlat)).
  rewrite (eqb_refl_not_nan _ (lon_in_range_not_nan _ Hlon)).
  reflexivity.
Qed.

End FloatFacts.

(** ** Facts about the loop and the closing step *)
Module ParserFacts.
Import PyStr PyStrFacts LinesFacts.

Lemma parse_pair_in_region line c : parse_pair line = Ok c -> in_region c.
Proof.
  unfold parse_pair.
  destruct (split comma line) as [|a [|b [|x rest]]]; try discriminate.
  unfold float_of.
  destruct (PyFloat.of_str (strip a)) as [lat|]; [|discriminate].
  destruct (PyFloat.of_str (strip b)) as [lon|]; [|discriminate].
  simpl.
  destruct (lat_in_range lat) eqn:Hlat; [|discriminate].
  destruct (lon_in_range lon) eqn:Hlon; [|discriminate].
  simpl. intros [= <-]. now split.
Qed.

Lemma reads_as_in_region line c : reads_as line c -> in_region c.
Proof.
  unfold reads_as, parse_line.
  destruct (is_empty (strip line)); [discriminate|].
  destruct (negb (contains comma (strip line))); [discriminate|].
  destruct (parse_pair (strip line)) as [c'|e] eqn:P; [|discriminate].
  simpl. intros [= <-]. exact (parse_pair_in_region _ _ P).
Qed.

Lemma parse_line_strip raw : parse_line (strip raw) = parse_line raw.
Proof. unfold parse_line. now rewrite strip_idem. Qed.

Lemma parse_line_blank raw : strip raw = [] -> parse_line raw = Ok None.
Proof. intros H. unfold parse_line. now rewrite H. Qed.

(** a line that is not blank is never skipped *)
Lemma parse_line_nonblank raw :
  strip raw <> [] -> parse_line raw <> Ok None.
Proof.
  unfold parse_line. intros H.
  destruct (strip raw) eqn:S; [congruence|]. simpl.
  destruct (negb _); [discriminate|].
  destruct (parse_pair _); discriminate.
Qed.

Lemma reads_as_functional line c c' :
  reads_as line c -> reads_as line c' -> c = c'.
Proof. unfold reads_as. congruence. Qed.

(** the loop only looks at the lines it does not skip *)
Lemma read_lines_nonblank ls :
  forall acc, read_lines ls acc = read_lines (nonblank ls) acc.
Proof.
  induction ls as [|raw rest IH]; intros acc; [reflexivity|].
  unfold nonblank. simpl map. simpl filter.
  destruct (strip raw) eqn:S.
  - simpl. rewrite (parse_line_blank raw S). simpl. apply IH.
  - simpl negb. cbv iota. rewrite <- S.
    change (read_lines (raw :: rest) acc
            = read_lines (strip raw :: nonblank rest) acc).
    simpl. rewrite parse_line_strip.
    destruct (parse_line raw) as [[c|]|e]; simpl; auto.
Qed.

Lemma read_lines_valid ls coords :
  Forall2 reads_as ls coords ->
  forall acc, read_lines ls acc = Ok (acc ++ coords).
Proof.
  induction 1 as [|l c ls coords Hl _ IH]; intros acc; simpl.
  - now rewrite app_nil_r.
  - rewrite Hl. simpl. rewrite IH, <- app_assoc. reflexivity.
Qed.

Lemma read_lines_inv ls :
  forall acc out, read_lines ls acc = Ok out ->
  exists coords, out = acc ++ coords /\ Forall2 reads_as (nonblank ls) coords.
Proof.
  induction ls as [|raw rest IH]; intros acc out H.
  - simpl in H. injection H as <-. exists []. split;
      [now rewrite app_nil_r | constructor].
  - simpl in H. unfold nonblank. simpl map. simpl filter.
    destruct (parse_line raw) as [[c|]|e] eqn:P; simpl in H;
      [| |discriminate].
    + destruct (IH _ _ H) as [coords [-> F]].
      destruct (strip raw) eqn:S.
      { rewrite (parse_line_blank raw S) in P. discriminate. }
      simpl negb. cbv iota. rewrite <- S.
      exists (c :: coords). split; [now rewrite <- app_assoc|].
      constructor; [|exact F].
      unfold reads_as. now rewrite parse_line_strip.
    + destruct (strip raw) eqn:S.
      * simpl. apply (IH _ _ H).
      * exfalso. apply (parse_line_nonblank raw); [|exact P].
        rewrite S. discriminate.
Qed.

(** a line the loop refuses makes the loop fail *)
Lemma read_lines_refuses ls line :
  In line (nonblank ls) -> (forall c, ~ reads_as line c) ->
  forall acc, exists e, read_lines ls acc = Raise e.
Proof.
  intros I N acc.
  destruct (read_lines ls acc) as [out|e] eqn:R; [|now exists e].
  exfalso. destruct (read_lines_inv _ _ _ R) as [coords [_ F]].
  clear R. induction F as [|l c ls' cs Hl _ IH]; [contradiction|].
  destruct I as [<-|I]; [exact (N c Hl)|exact (IH I)].
Qed.

Lemma input_vertices_lines text :
  input_vertices text = read_lines (lines_read text) [].
Proof.
  unfold input_vertices. rewrite read_lines_nonblank.
  change (nonblank (split newline (strip text)))
    with (lines_read (strip text)).
  now rewrite lines_read_strip.
Qed.

(** [parse_coordinates] in terms of the lines it reads *)
Lemma parse_coordinates_lines text :
  parse_coordinates text =
    match lines_read text with
    | [] => Raise NoCoordinatesEntered
    | ls => coordinates <- read_lines ls [] ;; close_polygon coordinates
    end.
Proof.
  unfold parse_coordinates.
  fold (input_vertices text). rewrite input_vertices_lines.
  destruct (strip text) eqn:S.
  - apply strip_nil_iff, lines_read_nil_iff in S. now rewrite S.
  - simpl. destruct (lines_read text) eqn:L; [|reflexivity].
    apply lines_read_nil_iff, strip_nil_iff in L. congruence.
Qed.

Lemma parse_coordinates_vertices text :
  parse_coordinates text =
    if is_empty (strip text) then Raise NoCoordinatesEntered
    else coordinates <- input_vertices text ;; close_polygon coordinates.
Proof. reflexivity. Qed.

Lemma close_polygon_ok coordinates :
  3 <= List.length coordinates ->
  close_polygon coordinates =
    Ok (if ends_differ coordinates
        then coordinates ++ firstn 1 coordinates else coordinates).
Proof.
  intros L. unfold close_polygon, ends_differ, first_item, last_item.
  destruct (Nat.ltb_spec (List.length coordinates) 3) as [H|_]; [lia|].
  destruct coordinates as [|first rest]; [simpl in L; lia|].
  remember (rev (first :: rest)) as rv eqn:R.
  destruct rv as [|last r].
  - apply (f_equal (@List.length Coord)) in R.
    rewrite length_rev in R. discriminate.
  - simpl. now destruct (coord_ne first last).
Qed.

Lemma close_polygon_short coordinates :
  List.length coordinates < 3 -> close_polygon coordinates = Raise NeedAtLeast3.
Proof.
  intros L. unfold close_polygon.
  now destruct (Nat.ltb_spec (List.length coordinates) 3) as [_|H]; [|lia].
Qed.

Lemma close_polygon_inv coordinates out :
  close_polygon coordinates = Ok out ->
  3 <= List.length coordinates /\
  out = if ends_differ coordinates
        then coordinates ++ firstn 1 coordinates else coordinates.
Proof.
  intros H.
  destruct (Nat.lt_ge_cases (List.length coordinates) 3) as [L|L].
  - rewrite (close_polygon_short _ L) in H. discriminate.
  - rewrite (close_polygon_ok _ L) in H. injection H as <-. now split.
Qed.

End ParserFacts.

(** ** Auxiliary facts about lists *)
Module ListFacts.

Lemma Forall2_length_eq {A B} (R : A -> B -> Prop) l l' :
  Forall2 R l l' -> List.length l = List.length l'.
Proof. induction 1; simpl; congruence. Qed.

Lemma Forall2_snoc {A B} (R : A -> B -> Prop) l l' a b :
  Forall2 R l l' -> R a b -> Forall2 R (l ++ [a]) (l' ++ [b]).
Proof. intros F H. apply Forall2_app; [exact F|]. now constructor. Qed.

Lemma Forall2_reverse {A B} (R : A -> B -> Prop) l l' :
  Forall2 R l l' -> Forall2 R (rev l) (rev l').
Proof.
  induction 1 as [|a b l l' H _ IH]; simpl; [constructor|].
  now apply Forall2_snoc.
Qed.

Lemma last_as_hd_rev {A} (l : list A) d : last l d = hd d (rev l).
Proof.
  induction l as [|a l' IH] using rev_ind; [reflexivity|].
  now rewrite last_last, rev_app_distr.
Qed.

Lemma nth_error_map_eq {A B} (f : A -> B) l i :
  nth_error (map f l) i = option_map f (nth_error l i).
Proof.
  revert i. induction l as [|a l IH]; intros [|i]; simpl; auto.
Qed.

End ListFacts.

Import PyStr PyStrFacts LinesFacts FloatFacts ParserFacts ListFacts.

(** ** Properties of [parse_coordinates] *)

(** when the first and the last line read are the same line, the first and
    the last coordinate are equal *)
Lemma closed_input_ends_equal (text : str) (coords : list Coord) :
  Forall2 reads_as (lines_read text) coords ->
  closed_input text ->
  ends_differ coords = false /\ hd_error (rev coords) = hd_error coords.
Proof.
  intros F C. unfold closed_input in C. rewrite last_as_hd_rev in C.
  pose proof (Forall2_reverse _ _ _ F) as Fr.
  unfold ends_differ.
  destruct F as [|l c ls cs Hl F]; [now split|].
  remember (rev (l :: ls)) as rls eqn:Rl.
  remember (rev (c :: cs)) as rcs eqn:Rc.
  destruct Fr as [|l' c' ls' cs' Hl' _].
  { simpl in Rc. destruct (rev cs); discriminate. }
  simpl in C. subst l'.
  rewrite (reads_as_functional _ _ _ Hl' Hl).
  split; [|reflexivity].
  exact (in_region_eq_self _ (reads_as_in_region _ _ Hl)).
Qed.

(** C1, as the code has it: on a text of at least three valid lines the
    parser returns one coordinate per line, and one more, the closing vertex,
    exactly when the first and the last coordinate differ.  When the first
    and the last line are the same there is none; two lines that differ may
    still spell the same coordinate. *)
Theorem parse_length_by_coordinates (text : str) (coords : list Coord) :
  Forall2 reads_as (lines_read text) coords ->
  3 <= List.length coords ->
  exists out,
    parse_coordinates text = Ok out /\
    List.length out =
      (if ends_differ coords then List.length (lines_read text) + 1
       else List.length (lines_read text)) /\
    (closed_input text -> List.length out = List.length (lines_read text)).
Proof.
  intros F L. rewrite parse_coordinates_lines.
  pose proof (Forall2_length_eq _ _ _ F) as E.
  pose proof (closed_input_ends_equal _ _ F) as C.
  destruct (lines_read text) as [|l ls] eqn:LR; [simpl in E; lia|].
  rewrite (read_lines_valid _ _ F). simpl app.
  simpl bind. rewrite (close_polygon_ok _ L).
  eexists. split; [reflexivity|].
  assert (H : List.length
                (if ends_differ coords then coords ++ firstn 1 coords
                 else coords)
              = if ends_differ coords then List.length (l :: ls) + 1
                else List.length (l :: ls)).
  { destruct (ends_differ coords); [|exact (eq_sym E)].
    rewrite length_app, E.
    destruct coords as [|c cs]; [simpl in L; lia|]. reflexivity. }
  split; [exact H|].
  intros Cl. rewrite H. now rewrite (proj1 (C Cl)).
Qed.

Lemma parse_length_by_coordinates_witness :
  Forall2 reads_as (lines_read Examples.open_triangle)
    [Examples.vertex (-21) 139; Examples.vertex (-21) 141;
     Examples.vertex (-20) 141]
  /\ exists out,
       parse_coordinates Examples.open_triangle = Ok out /\
       List.length out = 4.
Proof.
  assert (F : Forall2 reads_as (lines_read Examples.open_triangle)
                [Examples.vertex (-21) 139; Examples.vertex (-21) 141;
                 Examples.vertex (-20) 141]).
  { vm_compute lines_read. repeat constructor; vm_compute; reflexivity. }
  split; [exact F|].
  destruct (parse_length_by_coordinates Examples.open_triangle _ F (le_n 3))
    as [out [P [H _]]].
  exists out. split; [exact P | exact H].
Defined.

(** C1 as stated fails: the four lines of [respelled_ring] are valid, the
    first and the last differ as lines, and the result has four coordinates,
    not five. *)
Lemma parse_length_by_lines_counterexample :
  exists coords out,
    Forall2 reads_as (lines_read Examples.respelled_ring) coords /\
    3 <= List.length coords /\
    hd [] (lines_read Examples.respelled_ring)
      <> last (lines_read Examples.respelled_ring) [] /\
    parse_coordinates Examples.respelled_ring = Ok out /\
    List.length out <> List.length (lines_read Examples.respelled_ring) + 1.
Proof.
  exists [Examples.vertex (-21) 139; Examples.vertex (-21) 141;
          Examples.vertex (-20) 141; Examples.vertex (-21) 139].
  exists [Examples.vertex (-21) 139; Examples.vertex (-21) 141;
          Examples.vertex (-20) 141; Examples.vertex (-21) 139].
  split; [|split; [|split; [|split]]].
  - vm_compute lines_read. repeat constructor; vm_compute; reflexivity.
  - simpl. lia.
  - vm_compute. discriminate.
  - vm_compute. reflexivity.
  - vm_compute. discriminate.
Qed.

(** what an accepted text went through: its vertices were read, they were
    at least three, one per line, and the result is those vertices, closed *)
Lemma parse_coordinates_ok_inv (text : str) (out : list Coord) :
  parse_coordinates text = Ok out ->
  exists coords,
    input_vertices text = Ok coords /\
    Forall2 reads_as (lines_read text) coords /\
    3 <= List.length coords /\
    out = if ends_differ coords then coords ++ firstn 1 coords else coords.
Proof.
  rewrite parse_coordinates_vertices.
  destruct (is_empty (strip text)); [discriminate|].
  destruct (input_vertices text) as [coords|e] eqn:V; [|discriminate].
  simpl. intros C. apply close_polygon_inv in C as [L ->].
  exists coords. repeat split; trivial.
  unfold input_vertices in V. apply read_lines_inv in V as [cs [-> F]].
  now rewrite <- (lines_read_strip text).
Qed.

Lemma Forall2_In_left {A B} (R : A -> B -> Prop) l l' a :
  Forall2 R l l' -> In a l -> exists b, R a b.
Proof.
  induction 1 as [|x y l l' H _ IH]; [contradiction|].
  intros [<-|I]; [now exists y | exact (IH I)].
Qed.

(** a line the loop refuses makes the parser fail, wherever it stands *)
Lemma parse_coordinates_refuses (text line : str) :
  In line (lines_read text) -> (forall c, ~ reads_as line c) ->
  exists e, parse_coordinates text = Raise e.
Proof.
  intros I N.
  destruct (parse_coordinates text) as [out|e] eqn:P; [|now exists e].
  apply parse_coordinates_ok_inv in P as [coords [_ [F _]]].
  destruct (Forall2_In_left _ _ _ _ F I) as [c Hc].
  now destruct (N c).
Qed.

(** the lines read from a text put together from pieces *)
Lemma lines_read_join (pieces : list str) :
  lines_read (join [newline] pieces) = List.concat (map lines_read pieces).
Proof.
  induction pieces as [|p [|q rest] IH]; [reflexivity| |].
  - simpl. now rewrite app_nil_r.
  - change (join [newline] (p :: q :: rest))
      with (p ++ newline :: join [newline] (q :: rest)).
    rewrite lines_read_app_newline, IH. reflexivity.
Qed.

(** a line whose latitude is out of range is refused with the error that
    names the line and the latitude *)
Lemma parse_line_latitude_outside raw lat_str lon_str lat lon :
  split comma (strip raw) = [lat_str; lon_str] ->
  PyFloat.of_str (strip lat_str) = Some lat ->
  PyFloat.of_str (strip lon_str) = Some lon ->
  lat_in_range lat = false ->
  parse_line raw = Raise (ErrorParsingLine (strip raw) (LatitudeOutside lat)).
Proof.
  intros Sp Hlat Hlon R. unfold parse_line.
  pose proof (split_length comma (strip raw)) as L. rewrite Sp in L.
  destruct (strip raw) as [|c r] eqn:E; [discriminate|].
  simpl is_empty. cbv iota. rewrite <- E in *.
  rewrite contains_count.
  destruct (count_sep comma (strip raw)); [discriminate|].
  simpl negb. cbv iota.
  unfold parse_pair, float_of. rewrite Sp, Hlat, Hlon. simpl.
  now rewrite R.
Qed.

(** C2: an accepted text only yields coordinates inside the region, the
    closing vertex included.  A line whose latitude is out of range is
    refused with an error that names the line, the field and the value; the
    line [-30.0,139.0] makes the parser fail wherever it stands, and with
    that error when it is the first line. *)
Theorem parse_in_region_or_fails :
  (forall text,
     match parse_coordinates text with
     | Ok out => Forall in_region out
     | Raise _ => True
     end) /\
  (forall before after,
     exists e,
       parse_coordinates
         (Examples.lines_text (before ++ txt "-30.0,139.0" :: after))
       = Raise e) /\
  (forall rest format_float repr_str,
     let e := ErrorParsingLine (txt "-30.0,139.0")
                (LatitudeOutside (PyFloat.of_int (-30))) in
     parse_coordinates (txt "-30.0,139.0" ++ newline :: rest) = Raise e /\
     message format_float repr_str e =
       txt "Error parsing line '-30.0,139.0': Latitude "
         ++ format_float (PyFloat.of_int (-30))
         ++ txt " outside Queensland range (-29 to -10)") /\
  (forall raw lat_str lon_str lat lon format_float repr_str,
     split comma (strip raw) = [lat_str; lon_str] ->
     PyFloat.of_str (strip lat_str) = Some lat ->
     PyFloat.of_str (strip lon_str) = Some lon ->
     lat_in_range lat = false ->
     let e := ErrorParsingLine (strip raw) (LatitudeOutside lat) in
     parse_line raw = Raise e /\
     message format_float repr_str e =
       txt "Error parsing line '" ++ strip raw ++ txt "': Latitude "
         ++ format_float lat
         ++ txt " outside Queensland range (-29 to -10)").
Proof.
  split; [|split; [|split]].
  - intros text. destruct (parse_coordinates text) as [out|e] eqn:P; [|exact I].
    apply parse_coordinates_ok_inv in P as [coords [_ [F [L ->]]]].
    assert (R : Forall in_region coords).
    { clear L. induction F as [|l c ls cs Hl _ IH]; constructor; trivial.
      exact (reads_as_in_region _ _ Hl). }
    destruct (ends_differ coords); [|exact R].
    apply Forall_app. split; [exact R|].
    destruct coords as [|c cs]; [constructor|].
    inversion R; subst. simpl. now constructor.
  - intros before after.
    apply (parse_coordinates_refuses _ (txt "-30.0,139.0")).
    + unfold Examples.lines_text.
      rewrite lines_read_join, map_app, concat_app.
      apply in_or_app. right. rewrite map_cons, concat_cons.
      apply in_or_app. left. vm_compute. now left.
    + intros c. vm_compute. discriminate.
  - intros rest format_float repr_str e. split; [|reflexivity].
    rewrite parse_coordinates_lines, lines_read_app_newline.
    reflexivity.
  - intros raw lat_str lon_str lat lon format_float repr_str Sp Hlat Hlon R e.
    split; [exact (parse_line_latitude_outside _ _ _ _ _ Sp Hlat Hlon R)|].
    reflexivity.
Qed.

(** C3, as the code has it: an accepted text has at least three input
    vertices before closure, one per line read; the result is these
    vertices, followed by the first one when the ends differ.  The vertices
    are counted, not compared: they need not be distinct. *)
Theorem accepted_has_three_vertices (text : str) (out : list Coord) :
  parse_coordinates text = Ok out ->
  exists coords,
    input_vertices text = Ok coords /\
    3 <= List.length coords /\
    List.length coords = List.length (lines_read text) /\
    (out = coords \/ out = coords ++ firstn 1 coords).
Proof.
  intros P. apply parse_coordinates_ok_inv in P as [coords [V [F [L ->]]]].
  exists coords. repeat split; trivial.
  - symmetry. exact (Forall2_length_eq _ _ _ F).
  - destruct (ends_differ coords); [now right | now left].
Qed.

Lemma accepted_has_three_vertices_witness :
  parse_coordinates Examples.closed_ring
    = Ok [Examples.vertex (-21) 139; Examples.vertex (-21) 141;
          Examples.vertex (-20) 141; Examples.vertex (-20) 139;
          Examples.vertex (-21) 139]
  /\ exists coords,
       input_vertices Examples.closed_ring = Ok coords /\
       3 <= List.length coords /\
       List.length coords = List.length (lines_read Examples.closed_ring) /\
       (parse_coordinates Examples.closed_ring = Ok coords \/
        parse_coordinates Examples.closed_ring
          = Ok (coords ++ firstn 1 coords)).
Proof.
  assert (P : parse_coordinates Examples.closed_ring
              = Ok [Examples.vertex (-21) 139; Examples.vertex (-21) 141;
                    Examples.vertex (-20) 141; Examples.vertex (-20) 139;
                    Examples.vertex (-21) 139])
    by (vm_compute; reflexivity).
  split; [exact P|].
  destruct (accepted_has_three_vertices Examples.closed_ring _ P)
    as [coords [V [L [E O]]]].
  exists coords. repeat split; trivial.
  rewrite P. destruct O as [<-|<-]; [now left | now right].
Defined.

(** C3 as stated fails: [same_point_thrice] is accepted, and the three
    vertices read from it are one and the same point. *)
Lemma three_distinct_vertices_counterexample :
  let v := Examples.vertex (-21) 139 in
  parse_coordinates Examples.same_point_thrice = Ok [v; v; v] /\
  input_vertices Examples.same_point_thrice = Ok [v; v; v] /\
  ~ (exists a b c,
       In a [v; v; v] /\ In b [v; v; v] /\ In c [v; v; v] /\
       a <> b /\ a <> c /\ b <> c).
Proof.
  intros v. split; [vm_compute; reflexivity|].
  split; [vm_compute; reflexivity|].
  intros [a [b [c [Ha [Hb [_ [Hab _]]]]]]].
  apply Hab. simpl in Ha, Hb.
  destruct Ha as [<-|[<-|[<-|[]]]]; destruct Hb as [<-|[<-|[<-|[]]]];
    reflexivity.
Qed.

(** C4, as the code has it: one or two valid lines, and nothing else but
    blank lines, fail with "Need at least 3 coordinates". *)
Theorem too_few_lines_fail (text : str) (coords : list Coord) :
  Forall2 reads_as (lines_read text) coords ->
  1 <= List.length coords < 3 ->
  parse_coordinates text = Raise NeedAtLeast3 /\
  forall format_float repr_str,
    message format_float repr_str NeedAtLeast3
    = txt "Need at least 3 coordinates".
Proof.
  intros F [L1 L3]. split; [|reflexivity].
  rewrite parse_coordinates_lines.
  destruct (lines_read text) as [|l ls] eqn:LR.
  - inversion F; subst. simpl in L1. lia.
  - rewrite (read_lines_valid _ _ F). simpl.
    now apply close_polygon_short.
Qed.

Lemma too_few_lines_fail_witness :
  Forall2 reads_as (lines_read Examples.two_lines)
    [Examples.vertex (-21) 139; Examples.vertex (-21) 141]
  /\ parse_coordinates Examples.two_lines = Raise NeedAtLeast3.
Proof.
  assert (F : Forall2 reads_as (lines_read Examples.two_lines)
                [Examples.vertex (-21) 139; Examples.vertex (-21) 141]).
  { vm_compute lines_read. repeat constructor; vm_compute; reflexivity. }
  split; [exact F|].
  refine (proj1 (too_few_lines_fail Examples.two_lines _ F _)).
  simpl. lia.
Defined.

(** C4 as stated fails on the empty text: it holds no invalid line and
    fewer than three valid ones, and the error is "No coordinates entered". *)
Lemma too_few_lines_counterexample :
  Forall2 reads_as (lines_read []) [] /\
  @List.length Coord [] < 3 /\
  parse_coordinates [] = Raise NoCoordinatesEntered /\
  parse_coordinates [] <> Raise NeedAtLeast3.
Proof.
  split; [constructor|]. split; [simpl; lia|].
  split; [reflexivity | discriminate].
Qed.

(** C5: when the first and the last line of an accepted text are the same,
    nothing is appended: the result is the vertices read, one per line, and
    it ends with the vertex it starts with. *)
Theorem closed_input_not_duplicated (text : str) (out : list Coord) :
  parse_coordinates text = Ok out ->
  closed_input text ->
  input_vertices text = Ok out /\
  List.length out = List.length (lines_read text) /\
  hd_error (rev out) = hd_error out.
Proof.
  intros P C. apply parse_coordinates_ok_inv in P as [coords [V [F [L ->]]]].
  pose proof (closed_input_ends_equal _ _ F C) as D.
  destruct D as [D H]. rewrite D.
  repeat split; trivial.
  symmetry. exact (Forall2_length_eq _ _ _ F).
Qed.

Lemma closed_input_not_duplicated_witness :
  closed_input Examples.closed_ring /\
  input_vertices Examples.closed_ring
    = Ok [Examples.vertex (-21) 139; Examples.vertex (-21) 141;
          Examples.vertex (-20) 141; Examples.vertex (-20) 139;
          Examples.vertex (-21) 139].
Proof.
  assert (C : closed_input Examples.closed_ring) by (vm_compute; reflexivity).
  split; [exact C|].
  refine (proj1 (closed_input_not_duplicated Examples.closed_ring _ _ C)).
  vm_compute. reflexivity.
Defined.

(** C6: the line [-21.0,139.0] is read as latitude -21.0 and longitude
    139.0, whose longitude-latitude counterpart is (139.0, -21.0); the
    conversion swaps each pair where it stands, so it keeps the length and
    the order. *)
Theorem line_parses_and_conversion_swaps :
  parse_line (txt "-21.0,139.0")
    = Ok (Some (PyFloat.of_int (-21), PyFloat.of_int 139)) /\
  PyFloat.of_int (-21) = S754_finite true (21 * 2 ^ 48) (-48) /\
  PyFloat.of_int 139 = S754_finite false (139 * 2 ^ 45) (-45) /\
  convert_latlon_to_lonlat [(PyFloat.of_int (-21), PyFloat.of_int 139)]
    = [(PyFloat.of_int 139, PyFloat.of_int (-21))] /\
  forall latlon_coords,
    List.length (convert_latlon_to_lonlat latlon_coords)
      = List.length latlon_coords /\
    forall i,
      nth_error (convert_latlon_to_lonlat latlon_coords) i
      = option_map swap (nth_error latlon_coords i).
Proof.
  split; [vm_compute; reflexivity|].
  split; [vm_compute; reflexivity|].
  split; [vm_compute; reflexivity|].
  split; [reflexivity|].
  intros l. unfold convert_latlon_to_lonlat. split.
  - apply length_map.
  - intros i. apply nth_error_map_eq.
Qed.

(** C9: converting twice gives the list back. *)
Theorem convert_latlon_to_lonlat_involutive (coords : list Coord) :
  convert_latlon_to_lonlat (convert_latlon_to_lonlat coords) = coords.
Proof.
  unfold convert_latlon_to_lonlat.
  induction coords as [|[lat lon] rest IH]; simpl; [reflexivity|].
  now rewrite IH.
Qed.

(** ** Lines without exactly one separator *)

(** a string is its parts put together again, and no part holds the
    separator *)
Lemma join_split sep s : join [sep] (split sep s) = s.
Proof.
  induction s as [|c r IH]; [reflexivity|].
  rewrite split_cons.
  destruct (split sep r) as [|h ts] eqn:S; [now apply split_not_nil in S|].
  destruct (ascii_eqb c sep) eqn:E.
  - apply Ascii.eqb_eq in E. subst c.
    change (join [sep] ([] :: h :: ts)) with (sep :: join [sep] (h :: ts)).
    now rewrite IH.
  - simpl hd. simpl List.tl. destruct ts as [|h' tl'].
    + simpl in *. now rewrite IH.
    + change (join [sep] ((c :: h) :: h' :: tl'))
        with (c :: (h ++ [sep] ++ join [sep] (h' :: tl'))).
      change (join [sep] (h :: h' :: tl'))
        with (h ++ [sep] ++ join [sep] (h' :: tl')) in IH.
      now rewrite IH.
Qed.

Lemma split_parts_no_sep sep s :
  Forall (fun p => contains sep p = false) (split sep s).
Proof.
  induction s as [|c r IH]; [now repeat constructor|].
  rewrite split_cons.
  destruct (split sep r) as [|h ts] eqn:S; [now apply split_not_nil in S|].
  inversion IH as [|? ? Hh Ht]; subst.
  destruct (ascii_eqb c sep) eqn:E.
  - constructor; [reflexivity|]. now constructor.
  - constructor; [|exact Ht]. simpl. now rewrite E.
Qed.

Lemma split_two_inv sep s a b :
  split sep s = [a; b] ->
  s = a ++ sep :: b /\ contains sep a = false /\ contains sep b = false.
Proof.
  intros H. pose proof (join_split sep s) as J.
  pose proof (split_parts_no_sep sep s) as N.
  rewrite H in J, N. inversion N as [|? ? Na N']; subst.
  inversion N' as [|? ? Nb _]; subst.
  repeat split; trivial.
Qed.

Lemma lstrip_app_nonspace a c b :
  is_space c = false -> lstrip (a ++ c :: b) = lstrip a ++ c :: b.
Proof.
  intros E. rewrite lstrip_app. destruct (all_space a) eqn:A.
  - rewrite (lstrip_all_space a A). now apply lstrip_head.
  - reflexivity.
Qed.

Lemma rstrip_app_nonspace a c b :
  is_space c = false -> rstrip (a ++ c :: b) = a ++ c :: rstrip b.
Proof.
  intros E. unfold rstrip.
  rewrite rev_app_distr. simpl rev. rewrite <- app_assoc. simpl app.
  rewrite (lstrip_app_nonspace _ _ _ E), rev_app_distr. simpl rev.
  now rewrite rev_involutive, <- app_assoc.
Qed.

Lemma contains_lstrip sep s :
  contains sep s = false -> contains sep (lstrip s) = false.
Proof.
  unfold contains. induction s as [|c r IH]; simpl; [trivial|].
  intros H. apply orb_false_elim in H as [Hc Hr].
  destruct (is_space c); [now apply IH|]. simpl. now rewrite Hc, Hr.
Qed.

Lemma contains_rev sep s : contains sep (rev s) = contains sep s.
Proof.
  unfold contains. induction s as [|c r IH]; simpl; [reflexivity|].
  rewrite existsb_app, IH. simpl. rewrite orb_false_r. apply orb_comm.
Qed.

Lemma contains_rstrip sep s :
  contains sep s = false -> contains sep (rstrip s) = false.
Proof.
  intros H. unfold rstrip. rewrite contains_rev.
  apply contains_lstrip. now rewrite contains_rev.
Qed.

(** the two tokens of a line and of its stripped form *)
Lemma split_comma_strip raw a b :
  split comma raw = [a; b] ->
  split comma (strip raw) = [lstrip a; rstrip b].
Proof.
  intros H. apply split_two_inv in H as [-> [Na Nb]].
  unfold strip.
  rewrite (lstrip_app_nonspace _ _ _ comma_not_space).
  rewrite (rstrip_app_nonspace _ _ _ comma_not_space).
  rewrite split_app_sep.
  rewrite (split_no_sep _ _ (contains_lstrip _ _ Na)).
  now rewrite (split_no_sep _ _ (contains_rstrip _ _ Nb)).
Qed.

Lemma strip_lstrip s : strip (lstrip s) = strip s.
Proof. unfold strip. now rewrite lstrip_idem. Qed.

Lemma strip_rstrip s : strip (rstrip s) = strip s.
Proof. unfold strip. now rewrite <- strip_comm, rstrip_idem. Qed.

(** what the loop does with a line that has no separator, with one that
    has several, and with one that lacks a token *)
Lemma parse_line_no_separator raw :
  strip raw <> [] -> count_sep comma raw = 0 ->
  parse_line raw = Raise (InvalidFormat (strip raw)).
Proof.
  intros S C. unfold parse_line.
  destruct (strip raw) eqn:E; [congruence|]. simpl is_empty. cbv iota.
  rewrite <- E, contains_count, count_sep_strip, C by reflexivity.
  reflexivity.
Qed.

Lemma parse_line_many_separators raw :
  2 <= count_sep comma raw ->
  parse_line raw = Raise (ErrorParsingLine (strip raw) TooManyValues).
Proof.
  intros C. unfold parse_line.
  rewrite <- (count_sep_strip comma raw) in C by reflexivity.
  destruct (strip raw) eqn:E; [unfold count_sep in C; simpl in C; lia|].
  simpl is_empty. cbv iota.
  rewrite <- E in *. rewrite contains_count.
  destruct (count_sep comma (strip raw) =? 0) eqn:Z;
    [apply Nat.eqb_eq in Z; lia|]. simpl negb. cbv iota.
  unfold parse_pair.
  pose proof (split_length comma (strip raw)) as L.
  destruct (split comma (strip raw)) as [|p1 [|p2 [|p3 ps]]];
    simpl in L; try lia.
  reflexivity.
Qed.

Lemma parse_line_missing_token raw a b :
  split comma raw = [a; b] -> strip a = [] \/ strip b = [] ->
  exists e, parse_line raw = Raise e.
Proof.
  intros H T. unfold parse_line.
  destruct (is_empty (strip raw)) eqn:Em.
  { apply is_empty_true in Em. apply (f_equal (split comma)) in Em.
    rewrite (split_comma_strip _ _ _ H) in Em. discriminate. }
  destruct (negb (contains comma (strip raw))); [now eexists|].
  unfold parse_pair. rewrite (split_comma_strip _ _ _ H).
  rewrite strip_lstrip, strip_rstrip. unfold float_of.
  destruct T as [-> | ->].
  - now eexists.
  - destruct (PyFloat.of_str (strip a)); now eexists.
Qed.

(** a line that is not well separated is refused by the loop *)
Lemma parse_line_not_well_separated raw :
  strip raw <> [] -> ~ well_separated raw -> exists e, parse_line raw = Raise e.
Proof.
  intros S W.
  pose proof (split_length comma raw) as L.
  destruct (split comma raw) as [|a [|b [|x rest]]] eqn:Sp.
  - now apply split_not_nil in Sp.
  - eexists. apply parse_line_no_separator; [exact S|]. simpl in L. lia.
  - apply (parse_line_missing_token raw a b Sp).
    destruct (strip a) eqn:A; [now left|].
    destruct (strip b) eqn:B; [now right|].
    exfalso. apply W. exists a, b. rewrite A, B. now repeat split.
  - eexists. apply parse_line_many_separators. simpl in L. lia.
Qed.

Lemma count_sep_not_well_separated raw :
  count_sep comma raw <> 1 -> ~ well_separated raw.
Proof.
  intros C [a [b [H _]]]. apply C.
  pose proof (split_length comma raw) as L. rewrite H in L.
  simpl in L. lia.
Qed.

Lemma read_lines_stops before coords line e after :
  Forall2 reads_as before coords -> parse_line line = Raise e ->
  forall acc, read_lines (before ++ line :: after) acc = Raise e.
Proof.
  intros F P. induction F as [|l c ls cs Hl _ IH]; intros acc; simpl.
  - now rewrite P.
  - rewrite Hl. simpl. apply IH.
Qed.

(** C7: a non-blank line that does not hold exactly one separator between
    two tokens makes the parser fail.  With no separator at all, the line is
    refused with the format error that names it, and that is the error of
    the parser when the lines before it are valid; with several, the
    unpacking of its parts fails. *)
Theorem malformed_line_fails (text raw : str) :
  In raw (split newline text) ->
  strip raw <> [] ->
  ~ well_separated raw ->
  (exists e, parse_coordinates text = Raise e) /\
  (count_sep comma raw = 0 ->
     parse_line raw = Raise (InvalidFormat (strip raw)) /\
     (forall format_float repr_str,
        message format_float repr_str (InvalidFormat (strip raw))
        = txt "Invalid format: " ++ strip raw
            ++ txt ". Use latitude,longitude") /\
     (forall before after coords,
        lines_read text = before ++ strip raw :: after ->
        Forall2 reads_as before coords ->
        parse_coordinates text = Raise (InvalidFormat (strip raw)))) /\
  (2 <= count_sep comma raw ->
     parse_line raw = Raise (ErrorParsingLine (strip raw) TooManyValues)).
Proof.
  intros I S W.
  split; [|split].
  - apply (parse_coordinates_refuses text (strip raw)).
    + now apply nonblank_In.
    + intros c. unfold reads_as. rewrite parse_line_strip.
      destruct (parse_line_not_well_separated raw S W) as [e ->].
      discriminate.
  - intros Z. split; [now apply parse_line_no_separator|].
    split; [reflexivity|].
    intros before after coords L F.
    rewrite parse_coordinates_lines, L.
    destruct (before ++ strip raw :: after) as [|l ls] eqn:E;
      [now destruct before|].
    rewrite <- E.
    rewrite (read_lines_stops before coords (strip raw)
               (InvalidFormat (strip raw)) after F); [reflexivity|].
    rewrite parse_line_strip. now apply parse_line_no_separator.
  - apply parse_line_many_separators.
Qed.

Lemma malformed_line_fails_witness :
  In (txt "-21.0 139.0") (split newline Examples.missing_separator) /\
  strip (txt "-21.0 139.0") <> [] /\
  ~ well_separated (txt "-21.0 139.0") /\
  parse_coordinates Examples.missing_separator
    = Raise (InvalidFormat (txt "-21.0 139.0")).
Proof.
  assert (I : In (txt "-21.0 139.0")
                (split newline Examples.missing_separator))
    by (vm_compute; right; left; reflexivity).
  assert (S : strip (txt "-21.0 139.0") <> []) by (vm_compute; discriminate).
  assert (W : ~ well_separated (txt "-21.0 139.0")).
  { apply count_sep_not_well_separated. vm_compute. discriminate. }
  split; [exact I|]. split; [exact S|]. split; [exact W|].
  destruct (malformed_line_fails Examples.missing_separator
              (txt "-21.0 139.0") I S W) as [_ [Z _]].
  destruct (Z eq_refl) as [_ [_ P]].
  apply (P [txt "-21.0,139.0"] [txt "-20.0,141.0"]
           [Examples.vertex (-21) 139]).
  - vm_compute. reflexivity.
  - repeat constructor.
Defined.

Lemma summary_template_line
    (clipboard pushpin microscope gear : str)
    (region info data_type terms file_format max_datasets output_dir : str)
    (precise preview : bool) :
  has_line (txt "   Coordinates: " ++ info)
    (summary_template clipboard pushpin microscope gear region info data_type
       terms file_format max_datasets output_dir precise preview).
Proof.
  unfold has_line, summary_template.
  exists (clipboard ++ txt " DOWNLOAD CONFIGURATION" ++ [newline]
            ++ List.concat (repeat (txt "=") 50) ++ [newline] ++ [newline]
            ++ pushpin ++ txt " Search Area: " ++ region).
  eexists.
  repeat rewrite <- app_assoc. cbn [app]. reflexivity.
Qed.

(** C8: [update_summary] never raises.  Whatever the form holds, it ends
    normally and changes nothing but the text of the summary; that text
    opens with the heading of the summary, not with the report of an error,
    and holds the line of the coordinates: "Invalid or missing coordinates"
    when the parser refuses the text of the coordinates, whatever its error,
    and the number of vertices when it accepts it. *)
Theorem update_summary_never_raises
    (clipboard pushpin microscope gear : str)
    (format_float : PyFloat.float -> str) (repr_str : str -> str)
    (f : Form) :
  exists f',
    update_summary clipboard pushpin microscope gear format_float repr_str f
    = Ok f' /\
    same_settings f f' /\
    (exists rest,
       summary_text f'
       = clipboard ++ txt " DOWNLOAD CONFIGURATION" ++ newline :: rest) /\
    (forall e,
       parse_coordinates (coords_text f) = Raise e ->
       has_line (txt "   Coordinates: Invalid or missing coordinates")
         (summary_text f')) /\
    (forall coords,
       parse_coordinates (coords_text f) = Ok coords ->
       has_line
         (txt "   Coordinates: Valid polygon with "
            ++ str_of_Z (Z.of_nat (List.length coords) - 1)
            ++ txt " vertices")
         (summary_text f')).
Proof.
  unfold update_summary, summary_body, coords_info.
  destruct (parse_coordinates (coords_text f)) as [coords|e];
    cbn [bind try_except]; eexists; (split; [reflexivity|]);
    (split; [unfold same_settings; simpl; now repeat split|]);
    (split; [unfold summary_template; simpl summary_text;
             repeat rewrite <- app_assoc; eexists; reflexivity|]);
    simpl summary_text; split.
  - discriminate.
  - intros ? [= <-]. apply summary_template_line.
  - intros _ _. apply summary_template_line.
  - discriminate.
Qed.

(** the summary of a form whose second line holds a latitude out of range,
    written over an older summary *)
Lemma update_summary_never_raises_witness :
  exists f',
    update_summary (txt "[i]") (txt "[at]") (txt "[type]") (txt "[set]")
      PyRepr.float_repr PyRepr.str_repr Samples.refused_form
    = Ok f' /\
    (exists e,
       parse_coordinates (coords_text Samples.refused_form) = Raise e) /\
    summary_text f'
    = Examples.lines_text
        [txt "[i] DOWNLOAD CONFIGURATION";
         txt "==================================================";
         txt "";
         txt "[at] Search Area: Custom Polygon";
         txt "   Coordinates: Invalid or missing coordinates";
         txt "";
         txt "[type] Data Type: Mining Data";
         txt "   Search Terms: mining OR exploration OR resource";
         txt "   File Formats: All Formats (Recommended)";
         txt "";
         txt "[set] Settings:";
         txt "   Max Datasets: 20";
         txt "   Output Directory: gsq_polygon_data";
         txt "   Precise Filtering: Yes";
         txt "   Preview Mode: No";
         txt "";
         txt "Status: Ready for download";
         txt ""].
Proof.
  destruct (update_summary_never_raises (txt "[i]") (txt "[at]")
              (txt "[type]") (txt "[set]") PyRepr.float_repr PyRepr.str_repr
              Samples.refused_form) as [f' [E _]].
  exists f'. split; [exact E|].
  split; [eexists; vm_compute; reflexivity|].
  vm_compute in E. injection E as <-. vm_compute. reflexivity.
Defined.

(** C10: a text that is empty or all white space fails with "No
    coordinates entered", which is not the error of the vertex count; and a
    blank line, between two lines, before the first or after the last, does
    not change what the parser returns. *)
Theorem blank_text_and_blank_lines (blank : str) :
  all_space blank = true ->
  parse_coordinates blank = Raise NoCoordinatesEntered /\
  (forall format_float repr_str,
     message format_float repr_str NoCoordinatesEntered
       = txt "No coordinates entered" /\
     message format_float repr_str NoCoordinatesEntered
       <> message format_float repr_str NeedAtLeast3) /\
  (forall above below,
     parse_coordinates (above ++ newline :: blank ++ newline :: below)
     = parse_coordinates (above ++ newline :: below)) /\
  (forall below,
     parse_coordinates (blank ++ newline :: below) = parse_coordinates below) /\
  (forall above,
     parse_coordinates (above ++ newline :: blank) = parse_coordinates above).
Proof.
  intros B. pose proof (lines_read_blank _ B) as L.
  split; [|split; [|split; [|split]]].
  - rewrite parse_coordinates_lines. now rewrite L.
  - intros format_float repr_str. split; [reflexivity|].
    vm_compute. discriminate.
  - intros above below. rewrite !parse_coordinates_lines.
    now rewrite !lines_read_app_newline, L.
  - intros below. rewrite !parse_coordinates_lines.
    now rewrite lines_read_app_newline, L.
  - intros above. rewrite !parse_coordinates_lines.
    now rewrite lines_read_app_newline, L, app_nil_r.
Qed.

Lemma blank_text_and_blank_lines_witness :
  all_space (txt "   ") = true /\
  parse_coordinates (txt "   ") = Raise NoCoordinatesEntered /\
  parse_coordinates Examples.spaced_out
    = parse_coordinates Examples.open_triangle.
Proof.
  assert (B : all_space (txt "   ") = true) by reflexivity.
  split; [exact B|].
  split; [exact (proj1 (blank_text_and_blank_lines (txt "   ") B))|].
  vm_compute. reflexivity.
Defined.

(** * Further properties of the parser and of the window *)

(** ** Further properties of [parse_coordinates] *)

Lemma ends_differ_closed (c : Coord) (cs : list Coord) :
  in_region c -> ends_differ ((c :: cs) ++ [c]) = false.
Proof.
  intros R. unfold ends_differ. simpl.
  rewrite rev_app_distr. simpl. exact (in_region_eq_self c R).
Qed.

(** X1: what [parse_coordinates] returns is a closed ring of three
    coordinates or more: its first and its last coordinate are equal, so
    closing it again changes nothing. *)
Theorem parse_result_is_closed_ring (text : str) (out : list Coord) :
  parse_coordinates text = Ok out ->
  3 <= List.length out /\
  ends_differ out = false /\
  close_polygon out = Ok out.
Proof.
  intros P. apply parse_coordinates_ok_inv in P as [coords [_ [F [L ->]]]].
  assert (E : ends_differ
                (if ends_differ coords then coords ++ firstn 1 coords
                 else coords) = false).
  { destruct (ends_differ coords) eqn:D; [|exact D].
    destruct F as [|l c ls cs Hl _]; [discriminate|].
    exact (ends_differ_closed c cs (reads_as_in_region _ _ Hl)). }
  assert (L' : 3 <= List.length
                 (if ends_differ coords then coords ++ firstn 1 coords
                  else coords)).
  { destruct (ends_differ coords); [rewrite length_app; lia | exact L]. }
  split; [exact L'|]. split; [exact E|].
  rewrite (close_polygon_ok _ L'). now rewrite E.
Qed.

Lemma parse_result_is_closed_ring_witness :
  parse_coordinates Examples.open_triangle
    = Ok [Examples.vertex (-21) 139; Examples.vertex (-21) 141;
          Examples.vertex (-20) 141; Examples.vertex (-21) 139]
  /\ ends_differ [Examples.vertex (-21) 139; Examples.vertex (-21) 141;
                  Examples.vertex (-20) 141; Examples.vertex (-21) 139]
     = false.
Proof.
  assert (P : parse_coordinates Examples.open_triangle
              = Ok [Examples.vertex (-21) 139; Examples.vertex (-21) 141;
                    Examples.vertex (-20) 141; Examples.vertex (-21) 139])
    by (vm_compute; reflexivity).
  split; [exact P|].
  exact (proj1 (proj2 (parse_result_is_closed_ring _ _ P))).
Defined.

(** X2: the first line that is refused decides the error, whatever
    follows it and however many valid lines stand before it. *)
Theorem first_refused_line_decides (text : str) (before after : list str)
    (line : str) (coords : list Coord) (e : Exception) :
  lines_read text = before ++ line :: after ->
  Forall2 reads_as before coords ->
  parse_line line = Raise e ->
  parse_coordinates text = Raise e.
Proof.
  intros L F P. rewrite parse_coordinates_lines, L.
  destruct (before ++ line :: after) as [|l ls] eqn:E;
    [now destruct before|].
  rewrite <- E. now rewrite (read_lines_stops before coords line e after F P).
Qed.

Lemma first_refused_line_decides_witness :
  lines_read Samples.late_errors
    = [txt "-21.0,139.0"; txt "-21.0,141.0"; txt "-20.0,141.0"]
        ++ txt "-30.0,139.0" :: [txt "-21.0 139.0"]
  /\ parse_coordinates Samples.late_errors
     = Raise (ErrorParsingLine (txt "-30.0,139.0")
                (LatitudeOutside (PyFloat.of_int (-30)))).
Proof.
  assert (L : lines_read Samples.late_errors
              = [txt "-21.0,139.0"; txt "-21.0,141.0"; txt "-20.0,141.0"]
                  ++ txt "-30.0,139.0" :: [txt "-21.0 139.0"])
    by (vm_compute; reflexivity).
  split; [exact L|].
  apply (first_refused_line_decides _ _ _ _
           [Examples.vertex (-21) 139; Examples.vertex (-21) 141;
            Examples.vertex (-20) 141] _ L).
  - repeat constructor.
  - vm_compute. reflexivity.
Defined.

Lemma rstrip_snoc_space s c : is_space c = true -> rstrip (s ++ [c]) = rstrip s.
Proof.
  intros E. unfold rstrip. rewrite rev_app_distr. simpl. now rewrite E.
Qed.

Lemma lines_read_snoc_space s c :
  is_space c = true -> lines_read (s ++ [c]) = lines_read s.
Proof.
  intros E.
  now rewrite <- (lines_read_rstrip (s ++ [c])), (rstrip_snoc_space s c E),
    lines_read_rstrip.
Qed.

Lemma lines_read_join_crlf (pieces : list str) :
  lines_read (join [Samples.carriage_return; newline] pieces)
  = lines_read (join [newline] pieces).
Proof.
  rewrite lines_read_join.
  induction pieces as [|p [|q rest] IH]; [reflexivity| |].
  - simpl. now rewrite app_nil_r.
  - change (join [Samples.carriage_return; newline] (p :: q :: rest))
      with (p ++ [Samples.carriage_return]
              ++ newline
                   :: join [Samples.carriage_return; newline] (q :: rest)).
    rewrite app_assoc, lines_read_app_newline, IH.
    now rewrite (lines_read_snoc_space p Samples.carriage_return eq_refl).
Qed.

Lemma parse_coordinates_same_lines (t1 t2 : str) :
  lines_read t1 = lines_read t2 -> parse_coordinates t1 = parse_coordinates t2.
Proof. intros H. now rewrite !parse_coordinates_lines, H. Qed.

(** X3: the margins and the line ends do not matter.  The white space
    around the text and around each line, and a carriage return before each
    newline, leave the result of the parser as it is. *)
Theorem margins_and_line_ends_ignored :
  (forall text, parse_coordinates (strip text) = parse_coordinates text) /\
  (forall lines,
     parse_coordinates (join [newline] (map strip lines))
     = parse_coordinates (join [newline] lines)) /\
  (forall lines,
     parse_coordinates (join [Samples.carriage_return; newline] lines)
     = parse_coordinates (join [newline] lines)).
Proof.
  split; [|split].
  - intros text. apply parse_coordinates_same_lines, lines_read_strip.
  - intros lines. apply parse_coordinates_same_lines.
    rewrite !lines_read_join, map_map. f_equal.
    apply map_ext. intros l. apply lines_read_strip.
  - intros lines. apply parse_coordinates_same_lines, lines_read_join_crlf.
Qed.

(** *** White space around the separator *)

Lemma contains_strip sep s :
  contains sep s = false -> contains sep (strip s) = false.
Proof. intros H. unfold strip. now apply contains_rstrip, contains_lstrip. Qed.

Lemma parse_pair_tokens a b :
  contains comma a = false -> contains comma b = false ->
  parse_pair (a ++ comma :: b) = parse_pair (strip a ++ comma :: strip b).
Proof.
  intros Na Nb. unfold parse_pair.
  rewrite !split_app_sep.
  rewrite (split_no_sep _ _ Na), (split_no_sep _ _ Nb).
  rewrite (split_no_sep _ _ (contains_strip _ _ Na)).
  rewrite (split_no_sep _ _ (contains_strip _ _ Nb)).
  simpl. now rewrite !strip_idem.
Qed.

Lemma reads_as_tokens a b c :
  contains comma a = false -> contains comma b = false ->
  reads_as (a ++ comma :: b) c
  <-> parse_pair (strip a ++ comma :: strip b) = Ok c.
Proof.
  intros Na Nb.
  assert (S : strip (a ++ comma :: b) = lstrip a ++ comma :: rstrip b).
  { unfold strip. rewrite (lstrip_app_nonspace _ _ _ comma_not_space).
    apply (rstrip_app_nonspace _ _ _ comma_not_space). }
  unfold reads_as, parse_line. rewrite S.
  assert (E : is_empty (lstrip a ++ comma :: rstrip b) = false)
    by now destruct (lstrip a).
  assert (C : contains comma (lstrip a ++ comma :: rstrip b) = true).
  { unfold contains. apply existsb_exists. exists comma.
    split; [apply in_elt | reflexivity]. }
  rewrite E, C. simpl negb. cbv iota.
  rewrite (parse_pair_tokens _ _ (contains_lstrip _ _ Na)
             (contains_rstrip _ _ Nb)).
  rewrite strip_lstrip, strip_rstrip.
  destruct (parse_pair (strip a ++ comma :: strip b)) as [c'|e]; simpl.
  - split; congruence.
  - split; discriminate.
Qed.

(** X4: white space around the separator is ignored, like the white
    space around the line: a line of two tokens reads as a coordinate
    exactly when the line of the two stripped tokens does. *)
Theorem spaces_around_separator_ignored (lat_str lon_str : str) (c : Coord) :
  contains comma lat_str = false ->
  contains comma lon_str = false ->
  (reads_as (lat_str ++ comma :: lon_str) c
   <-> reads_as (strip lat_str ++ comma :: strip lon_str) c).
Proof.
  intros Na Nb.
  rewrite (reads_as_tokens _ _ c Na Nb).
  rewrite (reads_as_tokens _ _ c (contains_strip _ _ Na)
             (contains_strip _ _ Nb)).
  now rewrite !strip_idem.
Qed.

Lemma spaces_around_separator_ignored_witness :
  contains comma (txt "  -21.0 ") = false /\
  contains comma (txt " 139.0  ") = false /\
  reads_as (txt "  -21.0 , 139.0  ") (Examples.vertex (-21) 139).
Proof.
  assert (Na : contains comma (txt "  -21.0 ") = false) by reflexivity.
  assert (Nb : contains comma (txt " 139.0  ") = false) by reflexivity.
  split; [exact Na|]. split; [exact Nb|].
  apply (proj2 (spaces_around_separator_ignored _ _
                  (Examples.vertex (-21) 139) Na Nb)).
  vm_compute. reflexivity.
Defined.

(** *** Finite coordinates *)

Lemma lat_in_range_negative x :
  lat_in_range x = true -> exists m e, x = S754_finite true m e.
Proof.
  assert (Lo : PyFloat.of_int (-29) = S754_finite true 8162774324609024 (-48))
    by (vm_compute; reflexivity).
  assert (Hi : PyFloat.of_int (-10) = S754_finite true 5629499534213120 (-49))
    by (vm_compute; reflexivity).
  unfold lat_in_range, PyFloat.leb, SFleb. rewrite Lo, Hi.
  destruct x as [s|s| |s m e]; try destruct s;
    cbv beta iota delta [SFcompare andb]; intros H;
    try discriminate.
  now exists m, e.
Qed.

Lemma lon_in_range_positive x :
  lon_in_range x = true -> exists m e, x = S754_finite false m e.
Proof.
  assert (Lo : PyFloat.of_int 138 = S754_finite false 4855443348258816 (-45))
    by (vm_compute; reflexivity).
  assert (Hi : PyFloat.of_int 154 = S754_finite false 5418393301680128 (-45))
    by (vm_compute; reflexivity).
  unfold lon_in_range, PyFloat.leb, SFleb. rewrite Lo, Hi.
  destruct x as [s|s| |s m e]; try destruct s;
    cbv beta iota delta [SFcompare andb]; intros H;
    try discriminate.
  now exists m, e.
Qed.

(** X5: every coordinate the parser returns is a pair of finite numbers,
    a negative latitude and a positive longitude: [nan], the infinities and
    zero are never accepted. *)
Theorem accepted_coordinates_are_finite (text : str) (out : list Coord) :
  parse_coordinates text = Ok out ->
  Forall (fun c => exists m e m' e',
            c = (S754_finite true m e, S754_finite false m' e')) out.
Proof.
  intros P.
  assert (R : Forall in_region out).
  { apply parse_coordinates_ok_inv in P as [coords [_ [F [L ->]]]].
    assert (R : Forall in_region coords).
    { clear L. induction F as [|l c ls cs Hl _ IH]; constructor; trivial.
      exact (reads_as_in_region _ _ Hl). }
    destruct (ends_differ coords); [|exact R].
    apply Forall_app. split; [exact R|].
    destruct coords as [|c cs]; [constructor|].
    inversion R; subst. simpl. now constructor. }
  clear P. induction R as [|[lat lon] cs [Hlat Hlon] _ IH]; constructor; trivial.
  destruct (lat_in_range_negative lat Hlat) as [m [e ->]].
  destruct (lon_in_range_positive lon Hlon) as [m' [e' ->]].
  now exists m, e, m', e'.
Qed.

Lemma accepted_coordinates_are_finite_witness :
  parse_coordinates Examples.closed_ring
    = Ok [Examples.vertex (-21) 139; Examples.vertex (-21) 141;
          Examples.vertex (-20) 141; Examples.vertex (-20) 139;
          Examples.vertex (-21) 139]
  /\ exists m e m' e',
       Examples.vertex (-21) 139 = (S754_finite true m e, S754_finite false m' e').
Proof.
  assert (P : parse_coordinates Examples.closed_ring
              = Ok [Examples.vertex (-21) 139; Examples.vertex (-21) 141;
                    Examples.vertex (-20) 141; Examples.vertex (-20) 139;
                    Examples.vertex (-21) 139])
    by (vm_compute; reflexivity).
  split; [exact P|].
  exact (Forall_inv (accepted_coordinates_are_finite _ _ P)).
Defined.

(** *** The errors of the parser *)

Lemma read_lines_raise_inv ls :
  forall acc e, read_lines ls acc = Raise e ->
  exists raw, In raw ls /\ parse_line raw = Raise e.
Proof.
  induction ls as [|raw rest IH]; intros acc e H; [discriminate|].
  simpl in H. destruct (parse_line raw) as [[c|]|e'] eqn:P; simpl in H.
  - destruct (IH _ _ H) as [r [I R]]. exists r. split; [now right | exact R].
  - destruct (IH _ _ H) as [r [I R]]. exists r. split; [now right | exact R].
  - injection H as <-. exists raw. split; [now left | exact P].
Qed.

Lemma parse_pair_raise_inv line cause :
  contains comma line = true -> parse_pair line = Raise cause ->
  line_cause cause.
Proof.
  intros C. unfold parse_pair, line_cause.
  pose proof (split_length comma line) as L.
  rewrite contains_count in C.
  destruct (split comma line) as [|a [|b [|x rest]]]; simpl in L.
  - discriminate.
  - injection L as L. rewrite <- L in C. discriminate.
  - unfold float_of.
    destruct (PyFloat.of_str (strip a)) as [lat|]; simpl;
      [|intros [= <-]; right; left; eauto].
    destruct (PyFloat.of_str (strip b)) as [lon|]; simpl;
      [|intros [= <-]; right; left; eauto].
    destruct (lat_in_range lat) eqn:Hlat; simpl;
      [|intros [= <-]; right; right; left; eauto].
    destruct (lon_in_range lon) eqn:Hlon; simpl;
      [discriminate | intros [= <-]; right; right; right; eauto].
  - intros [= <-]. now left.
Qed.

(** X6: the parser fails in four ways only.  The text is blank; or fewer
    than three lines were read, all of them valid; or a line that was read
    holds no separator; or the [try] block refused a line that was read,
    because it has too many parts, a token that is not a number, or a
    number out of range.  It never fails on an index or on a missing
    part. *)
Theorem parse_failures_classified (text : str) (e : Exception) :
  parse_coordinates text = Raise e ->
  (e = NoCoordinatesEntered /\ all_space text = true) \/
  (e = NeedAtLeast3 /\
   exists coords,
     Forall2 reads_as (lines_read text) coords /\
     1 <= List.length coords < 3) \/
  (exists line,
     In line (lines_read text) /\ contains comma line = false /\
     e = InvalidFormat line) \/
  (exists line cause,
     In line (lines_read text) /\ contains comma line = true /\
     e = ErrorParsingLine line cause /\ line_cause cause).
Proof.
  rewrite parse_coordinates_vertices.
  destruct (is_empty (strip text)) eqn:Em.
  { intros [= <-]. left. split; [reflexivity|].
    now apply strip_nil_iff, is_empty_true. }
  assert (NE : lines_read text <> []).
  { intros H. apply lines_read_nil_iff, strip_nil_iff in H.
    rewrite H in Em. discriminate. }
  unfold input_vertices.
  destruct (read_lines (split newline (strip text)) []) as [coords|e'] eqn:R;
    simpl.
  - intros C. right. left.
    destruct (Nat.lt_ge_cases (List.length coords) 3) as [L|L];
      [|rewrite (close_polygon_ok _ L) in C; discriminate].
    rewrite (close_polygon_short _ L) in C. injection C as <-.
    split; [reflexivity|]. exists coords.
    apply read_lines_inv in R as [cs [E F]]. simpl in E. subst cs.
    change (nonblank (split newline (strip text)))
      with (lines_read (strip text)) in F.
    rewrite lines_read_strip in F. split; [exact F|].
    pose proof (Forall2_length_eq _ _ _ F) as E.
    destruct (lines_read text); [congruence | simpl in E; lia].
  - intros [= <-]. right. right.
    apply read_lines_raise_inv in R as [raw [I P]].
    unfold parse_line in P.
    destruct (strip raw) as [|c r] eqn:S; [discriminate|].
    assert (I' : In (strip raw) (lines_read text)).
    { rewrite <- (lines_read_strip text). apply nonblank_In; [exact I|].
      rewrite S. discriminate. }
    simpl is_empty in P. cbv iota in P. rewrite <- S in *. clear S.
    destruct (contains comma (strip raw)) eqn:C; simpl in P.
    + right. destruct (parse_pair (strip raw)) as [v|cause] eqn:PP;
        simpl in P; [discriminate|].
      injection P as <-. exists (strip raw), cause.
      repeat split; trivial. exact (parse_pair_raise_inv _ _ C PP).
    + left. injection P as <-. exists (strip raw). now repeat split.
Qed.

Lemma parse_failures_classified_witness :
  parse_coordinates Samples.late_errors
    = Raise (ErrorParsingLine (txt "-30.0,139.0")
               (LatitudeOutside (PyFloat.of_int (-30))))
  /\ line_cause (LatitudeOutside (PyFloat.of_int (-30))).
Proof.
  assert (P : parse_coordinates Samples.late_errors
              = Raise (ErrorParsingLine (txt "-30.0,139.0")
                         (LatitudeOutside (PyFloat.of_int (-30)))))
    by (vm_compute; reflexivity).
  split; [exact P|].
  destruct (parse_failures_classified _ _ P)
    as [[H _]|[[H _]|[[l [_ [_ H]]]|[l [cause [_ [_ [H C]]]]]]]];
    try discriminate.
  injection H as _ <-. exact C.
Defined.

(** ** The margins of [int] and [float] *)

(** NEL and NBSP are skipped around a number, as the ASCII white space is;
    FS is not, though [str.strip] removes it *)
Example number_margins :
  PyInt.of_str (ascii_of_N 160 :: txt " 20" ++ [ascii_of_N 133]) = inr 20%Z /\
  PyInt.of_str (ascii_of_N 28 :: txt "20")
  = inl (PyInt.InvalidLiteral (ascii_of_N 28 :: txt "20")) /\
  PyInt.error_text (PyInt.InvalidLiteral (ascii_of_N 28 :: txt "20"))
  = txt "invalid literal for int() with base 10: '\x1c20'" /\
  PyFloat.of_str (ascii_of_N 160 :: txt "1.5") = PyFloat.of_str (txt "1.5") /\
  PyFloat.of_str (ascii_of_N 28 :: txt "1.5") = None /\
  PyFloat.of_str (strip (ascii_of_N 28 :: txt "1.5"))
  = PyFloat.of_str (txt "1.5").
Proof. vm_compute. repeat split. Qed.

(** the digits are counted before what follows them is read, and the
    literal of the message is cut after 200 characters of its [repr] *)
Example int_limit_and_message :
  PyInt.of_str (repeat "1"%char 4301 ++ txt "x")
  = inl (PyInt.ExceedsLimit 4301) /\
  PyInt.of_str (repeat "1"%char 4301 ++ txt "_")
  = inl (PyInt.InvalidLiteral (repeat "1"%char 4301 ++ txt "_")) /\
  List.length (PyInt.error_text (PyInt.InvalidLiteral (repeat "a"%char 300)))
  = 240.
Proof. vm_compute. repeat split. Qed.

(** ** What [repr] prints *)

Lemma plain_uint d :
  forallb plain (list_ascii_of_string (NilEmpty.string_of_uint d)) = true.
Proof. induction d; simpl; trivial. Qed.

Lemma str_of_Z_plain z : forallb plain (str_of_Z z) = true.
Proof.
  unfold str_of_Z, txt, NilZero.string_of_int, NilZero.string_of_uint.
  destruct (Z.to_int z) as [d|d]; destruct d; simpl; trivial;
    apply plain_uint.
Qed.

Lemma forallb_firstn_skipn {A} (f : A -> bool) n l :
  forallb f l = true ->
  forallb f (firstn n l) = true /\ forallb f (skipn n l) = true.
Proof.
  intros H. rewrite <- (firstn_skipn n l), forallb_app in H.
  now apply andb_prop.
Qed.

Lemma plain_zeros k : forallb plain (PyRepr.zeros k) = true.
Proof.
  unfold PyRepr.zeros. induction (Z.to_nat k); simpl; trivial.
Qed.

Lemma plain_layout ds decpt :
  forallb plain ds = true -> forallb plain (PyRepr.layout ds decpt) = true.
Proof.
  intros H. unfold PyRepr.layout.
  destruct (_ || _).
  - destruct ds as [|d1 [|d2 r]];
      rewrite !forallb_app, str_of_Z_plain;
      destruct (_ <? 0)%Z, (_ <? 10)%Z; simpl in H |- *;
      rewrite ?H; reflexivity.
  - destruct (decpt <=? 0)%Z.
    + rewrite !forallb_app, plain_zeros, H. reflexivity.
    + destruct (_ <? _)%Z.
      * destruct (forallb_firstn_skipn plain (Z.to_nat decpt) ds H) as [F S].
        rewrite !forallb_app, F, S. reflexivity.
      * rewrite !forallb_app, plain_zeros, H. reflexivity.
Qed.

(** [repr] of a float holds neither white space nor the separator *)
Lemma float_repr_plain x : forallb plain (PyRepr.float_repr x) = true.
Proof.
  destruct x as [s|s| |s m e]; try (now destruct s); trivial.
  unfold PyRepr.float_repr.
  match goal with
  | |- context [PyRepr.shortest ?f ?k ?x ?n ?d ?p] =>
      destruct (PyRepr.shortest f k x n d p) as [q decpt]
  end.
  rewrite forallb_app, plain_layout by apply str_of_Z_plain.
  now destruct s.
Qed.

Lemma plain_no_comma s : forallb plain s = true -> contains comma s = false.
Proof.
  unfold contains. induction s as [|c r IH]; simpl; [trivial|].
  intros H. apply andb_prop in H as [Hc Hr]. rewrite (IH Hr).
  unfold plain in Hc. apply andb_prop in Hc as [_ Hc].
  now destruct (ascii_eqb c comma).
Qed.

Lemma plain_no_newline s : forallb plain s = true -> contains newline s = false.
Proof.
  unfold contains. induction s as [|c r IH]; simpl; [trivial|].
  intros H. apply andb_prop in H as [Hc Hr]. rewrite (IH Hr).
  unfold plain in Hc. apply andb_prop in Hc as [Hc _].
  destruct (ascii_eqb c newline) eqn:E; [|reflexivity].
  apply Ascii.eqb_eq in E. subst c. discriminate.
Qed.

Lemma plain_lstrip s : forallb plain s = true -> lstrip s = s.
Proof.
  destruct s as [|c r]; simpl; [trivial|].
  intros H. apply andb_prop in H as [Hc _].
  unfold plain in Hc. apply andb_prop in Hc as [Hc _].
  now destruct (is_space c).
Qed.

Lemma plain_rstrip s : forallb plain s = true -> rstrip s = s.
Proof.
  intros H. unfold rstrip.
  rewrite plain_lstrip; [apply rev_involutive|].
  rewrite forallb_forall in *. intros c I. apply H. now apply in_rev.
Qed.

Lemma plain_strip s : forallb plain s = true -> strip s = s.
Proof.
  intros H. unfold strip. now rewrite (plain_lstrip s H), (plain_rstrip s H).
Qed.

(** the line that [coords_lines] writes for a coordinate *)
Lemma coord_line_reads_as (c : Coord) :
  in_region c -> reads_back (fst c) -> reads_back (snd c) ->
  reads_as (PyRepr.float_repr (fst c) ++ txt "," ++ PyRepr.float_repr (snd c)) c.
Proof.
  intros [Rlat Rlon] Blat Blon.
  pose proof (float_repr_plain (fst c)) as Pa.
  pose proof (float_repr_plain (snd c)) as Pb.
  change (txt "," ++ PyRepr.float_repr (snd c))
    with (comma :: PyRepr.float_repr (snd c)).
  apply (reads_as_tokens _ _ c (plain_no_comma _ Pa) (plain_no_comma _ Pb)).
  rewrite (plain_strip _ Pa), (plain_strip _ Pb).
  unfold parse_pair. rewrite split_app_sep.
  rewrite (split_no_sep _ _ (plain_no_comma _ Pa)).
  rewrite (split_no_sep _ _ (plain_no_comma _ Pb)).
  change ([PyRepr.float_repr (fst c)] ++ [PyRepr.float_repr (snd c)])
    with [PyRepr.float_repr (fst c); PyRepr.float_repr (snd c)].
  cbv beta iota.
  rewrite (plain_strip _ Pa), (plain_strip _ Pb).
  unfold float_of. unfold reads_back in Blat, Blon. rewrite Blat, Blon.
  cbn [bind]. rewrite Rlat, Rlon. cbn [negb]. now destruct c.
Qed.

Lemma coord_line_single (c : Coord) :
  lines_read (PyRepr.float_repr (fst c) ++ txt "," ++ PyRepr.float_repr (snd c))
  = [PyRepr.float_repr (fst c) ++ txt "," ++ PyRepr.float_repr (snd c)].
Proof.
  pose proof (float_repr_plain (fst c)) as Pa.
  pose proof (float_repr_plain (snd c)) as Pb.
  change (txt "," ++ PyRepr.float_repr (snd c))
    with (comma :: PyRepr.float_repr (snd c)).
  assert (S : strip (PyRepr.float_repr (fst c)
                       ++ comma :: PyRepr.float_repr (snd c))
              = PyRepr.float_repr (fst c)
                  ++ comma :: PyRepr.float_repr (snd c)).
  { unfold strip. rewrite (lstrip_app_nonspace _ _ _ comma_not_space).
    rewrite (rstrip_app_nonspace _ _ _ comma_not_space).
    now rewrite (plain_lstrip _ Pa), (plain_rstrip _ Pb). }
  rewrite lines_read_single; [now rewrite S | | rewrite S].
  - unfold contains. rewrite existsb_app. simpl existsb.
    fold (contains newline (PyRepr.float_repr (fst c))).
    fold (contains newline (PyRepr.float_repr (snd c))).
    now rewrite (plain_no_newline _ Pa), (plain_no_newline _ Pb).
  - now destruct (PyRepr.float_repr (fst c)).
Qed.

Lemma concat_map_single {A} (f : A -> str) (l : list A) :
  (forall a, lines_read (f a) = [f a]) ->
  List.concat (map (fun a => lines_read (f a)) l) = map f l.
Proof.
  intros H. induction l as [|a l IH]; [reflexivity|].
  simpl. now rewrite H, IH.
Qed.

Lemma coords_lines_read (coords : list Coord) :
  lines_read (widget_text (coords_lines coords))
  = map (fun c => PyRepr.float_repr (fst c) ++ txt ","
                    ++ PyRepr.float_repr (snd c)) coords.
Proof.
  unfold widget_text. rewrite (lines_read_snoc_space _ newline eq_refl).
  unfold coords_lines. rewrite lines_read_join, map_map.
  apply (concat_map_single
           (fun c : Coord => PyRepr.float_repr (fst c) ++ txt ","
                               ++ PyRepr.float_repr (snd c))).
  exact coord_line_single.
Qed.

Lemma coords_lines_parse (coords : list Coord) :
  3 <= List.length coords ->
  Forall in_region coords ->
  Forall (fun c => reads_back (fst c) /\ reads_back (snd c)) coords ->
  parse_coordinates (widget_text (coords_lines coords))
  = Ok (if ends_differ coords then coords ++ firstn 1 coords else coords).
Proof.
  intros L R B. rewrite parse_coordinates_lines, coords_lines_read.
  assert (F : Forall2 reads_as
                (map (fun c => PyRepr.float_repr (fst c) ++ txt ","
                                 ++ PyRepr.float_repr (snd c)) coords)
                coords).
  { clear L. induction coords as [|c cs IH]; [constructor|].
    inversion R; inversion B; subst. constructor; [|now apply IH].
    now apply coord_line_reads_as. }
  remember (map (fun c => PyRepr.float_repr (fst c) ++ txt ","
                             ++ PyRepr.float_repr (snd c)) coords) as ls.
  destruct ls as [|l ls'].
  { apply Forall2_length_eq in F. simpl in F. lia. }
  rewrite (read_lines_valid _ _ F). simpl app.
  simpl bind. now apply close_polygon_ok.
Qed.

(** X7: what the window writes it reads back.  The lines written for a
    list of three or more coordinates of the region, whose numbers are read
    back from their [repr], are parsed as that list, closed when it is
    open. *)
Theorem written_coordinates_are_read_back (coords : list Coord) :
  3 <= List.length coords ->
  Forall in_region coords ->
  Forall (fun c => reads_back (fst c) /\ reads_back (snd c)) coords ->
  parse_coordinates (widget_text (coords_lines coords))
  = Ok (if ends_differ coords then coords ++ firstn 1 coords else coords).
Proof. exact (coords_lines_parse coords). Qed.

Lemma written_coordinates_are_read_back_witness :
  Forall in_region [point "-27.8" "152.5"; point "-27.8" "153.5";
                    point "-27.0" "153.5"]
  /\ parse_coordinates
       (widget_text
          (coords_lines [point "-27.8" "152.5"; point "-27.8" "153.5";
                         point "-27.0" "153.5"]))
     = Ok [point "-27.8" "152.5"; point "-27.8" "153.5";
           point "-27.0" "153.5"; point "-27.8" "152.5"].
Proof.
  assert (R : Forall in_region
                [point "-27.8" "152.5"; point "-27.8" "153.5";
                 point "-27.0" "153.5"])
    by (repeat constructor).
  split; [exact R|].
  refine (written_coordinates_are_read_back
            [point "-27.8" "152.5"; point "-27.8" "153.5";
             point "-27.0" "153.5"] (le_n 3) R _).
  repeat constructor; vm_compute; reflexivity.
Defined.

(** ** The regions of the window *)

Ltac check_region :=
  constructor;
  [ split;
    [ vm_compute; reflexivity
    | cbv beta iota delta [coords snd fst];
      try (split; [vm_compute; reflexivity|]);
      try (split; [discriminate | vm_compute; reflexivity]);
      try exact I ]
  | ].

(** every entry is found under its name, and the ring of an entry that has
    one is what the parser returns for the lines written from it *)
Lemma predefined_regions_checked :
  Forall (fun entry =>
            lookup (fst entry) predefined_regions = Some (snd entry) /\
            match coords (snd entry) with
            | Some ring =>
                str_eqb (fst entry) (txt "Custom Polygon") = false /\
                ring <> [] /\
                parse_coordinates (widget_text (coords_lines ring)) = Ok ring
            | None => True
            end)
    predefined_regions.
Proof.
  unfold predefined_regions at 2. repeat check_region. constructor.
Qed.

(** X8: selecting a region of the list never fails; it shows the
    description of the region and, when the region has a ring, fills the
    coordinates with lines that the parser accepts and reads back as that
    very ring.  The last entry has no ring and leaves the form as it is. *)
Theorem region_selection_is_accepted (w : Window) (name : str)
    (info : RegionInfo) :
  In (name, info) predefined_regions ->
  region_var (form w) = name ->
  exists w',
    on_region_change w = Some w' /\
    region_desc_var w' = description info /\
    match coords info with
    | Some ring =>
        parse_coordinates (coords_text (form w')) = Ok ring /\
        coords_info (form w')
        = Ok (txt "Valid polygon with "
                ++ str_of_Z (Z.of_nat (List.length ring) - 1)
                ++ txt " vertices")
    | None => form w' = form w
    end.
Proof.
  intros I R.
  pose proof (proj1 (Forall_forall _ _) predefined_regions_checked _ I)
    as [L C].
  simpl fst in L, C. simpl snd in L, C.
  unfold on_region_change. rewrite R, L.
  destruct (coords info) as [ring|].
  - destruct C as [N [E P]]. rewrite N. simpl negb. cbv iota.
    destruct ring as [|c cs]; [congruence|].
    eexists. split; [reflexivity|]. split; [reflexivity|].
    split; [exact P|].
    unfold coords_info.
    match goal with
    | |- context [parse_coordinates ?t] =>
        change t with (widget_text (coords_lines (c :: cs)))
    end.
    now rewrite P.
  - destruct (negb _); eexists; split; try reflexivity; now split.
Qed.

Lemma region_selection_is_accepted_witness :
  In (txt "Great Barrier Reef Catchment",
      {| description := txt "Environmental and marine geological data";
         coords := Some [point "-25.0" "145.0"; point "-25.0" "154.0";
                         point "-10.0" "154.0"; point "-10.0" "145.0";
                         point "-25.0" "145.0"] |})
    predefined_regions
  /\ exists w',
       on_region_change
         (Samples.with_region Samples.ready_window
            (txt "Great Barrier Reef Catchment")) = Some w' /\
       parse_coordinates (coords_text (form w'))
       = Ok [point "-25.0" "145.0"; point "-25.0" "154.0";
             point "-10.0" "154.0"; point "-10.0" "145.0";
             point "-25.0" "145.0"].
Proof.
  assert (I : In (txt "Great Barrier Reef Catchment",
                  {| description :=
                       txt "Environmental and marine geological data";
                     coords := Some [point "-25.0" "145.0";
                                     point "-25.0" "154.0";
                                     point "-10.0" "154.0";
                                     point "-10.0" "145.0";
                                     point "-25.0" "145.0"] |})
                predefined_regions).
  { unfold predefined_regions. do 4 right. left. reflexivity. }
  split; [exact I|].
  destruct (region_selection_is_accepted
              (Samples.with_region Samples.ready_window
                 (txt "Great Barrier Reef Catchment")) _ _ I eq_refl)
    as [w' [H [_ [P _]]]].
  exists w'. split; [exact H | exact P].
Defined.

(** ** The handlers of the window *)

(** the result of the parser on a text of valid lines *)
Lemma parse_coordinates_valid (text : str) (coords : list Coord) :
  Forall2 reads_as (lines_read text) coords ->
  3 <= List.length coords ->
  parse_coordinates text
  = Ok (if ends_differ coords then coords ++ firstn 1 coords else coords).
Proof.
  intros F L. rewrite parse_coordinates_lines.
  pose proof (Forall2_length_eq _ _ _ F) as E.
  destruct (lines_read text) as [|l ls] eqn:LR; [simpl in E; lia|].
  rewrite (read_lines_valid _ _ F). simpl app. simpl bind.
  now apply close_polygon_ok.
Qed.

Lemma parse_coordinates_length (text : str) (out : list Coord) :
  parse_coordinates text = Ok out -> 3 <= List.length out.
Proof.
  intros P. apply parse_coordinates_ok_inv in P as [coords [_ [_ [L ->]]]].
  destruct (ends_differ coords); [rewrite length_app; lia | exact L].
Qed.

(** X9: [validate_coords] shows one box and changes nothing else: the
    count of an accepted polygon, which is three at least, or the error of
    the parser.  The warning of its [else] branch is never shown. *)
Theorem validate_coords_shows_one_box (check_mark cross_mark : str)
    (w : Window) :
  (exists out,
     parse_coordinates (coords_text (form w)) = Ok out /\
     3 <= List.length out /\
     validate_coords check_mark cross_mark w
     = show_box w ShowInfo (txt "Validation")
         (check_mark ++ txt " Valid polygon with "
            ++ str_of_Z (Z.of_nat (List.length out)) ++ txt " vertices")) \/
  (exists e,
     parse_coordinates (coords_text (form w)) = Raise e /\
     validate_coords check_mark cross_mark w
     = show_box w ShowError (txt "Validation Error")
         (cross_mark ++ txt " Invalid coordinates: " ++ error_message e)).
Proof.
  unfold validate_coords.
  destruct (parse_coordinates (coords_text (form w))) as [out|e] eqn:P.
  - left. exists out. pose proof (parse_coordinates_length _ _ P) as L.
    repeat split; trivial.
    now destruct (Nat.leb_spec 3 (List.length out)) as [_|H]; [|lia].
  - right. now exists e.
Qed.

(** X10: the two counts of a polygon.  For a text of valid lines, the
    summary counts the vertices of the ring without the closing one, which
    is the number of lines, less one when the input is closed already;
    [validate_coords] counts one more. *)
Theorem summary_and_validation_counts (check_mark cross_mark : str)
    (w : Window) (coords : list Coord) :
  Forall2 reads_as (lines_read (coords_text (form w))) coords ->
  3 <= List.length coords ->
  let vertices :=
    (Z.of_nat (List.length coords)
     - (if ends_differ coords then 0 else 1))%Z in
  coords_info (form w)
  = Ok (txt "Valid polygon with " ++ str_of_Z vertices ++ txt " vertices") /\
  validate_coords check_mark cross_mark w
  = show_box w ShowInfo (txt "Validation")
      (check_mark ++ txt " Valid polygon with "
         ++ str_of_Z (vertices + 1) ++ txt " vertices").
Proof.
  intros F L vertices.
  pose proof (parse_coordinates_valid _ _ F L) as P.
  assert (N : Z.of_nat
                (List.length
                   (if ends_differ coords then coords ++ firstn 1 coords
                    else coords)) = (vertices + 1)%Z).
  { unfold vertices. destruct (ends_differ coords); [|lia].
    rewrite length_app.
    destruct coords as [|c cs]; [simpl in L; lia|]. simpl firstn.
    simpl List.length. lia. }
  split.
  - unfold coords_info. rewrite P. cbn [bind try_except]. rewrite N.
    now replace (vertices + 1 - 1)%Z with vertices by lia.
  - unfold validate_coords. rewrite P, N.
    destruct (Nat.leb_spec 3
                (List.length
                   (if ends_differ coords then coords ++ firstn 1 coords
                    else coords))) as [_|H]; [reflexivity|].
    pose proof (parse_coordinates_length _ _ P). lia.
Qed.

Lemma summary_and_validation_counts_witness :
  Forall2 reads_as (lines_read (coords_text (form Samples.ready_window)))
    [Examples.vertex (-21) 139; Examples.vertex (-21) 141;
     Examples.vertex (-20) 141; Examples.vertex (-20) 139;
     Examples.vertex (-21) 139]
  /\ coords_info (form Samples.ready_window)
     = Ok (txt "Valid polygon with 4 vertices").
Proof.
  assert (F : Forall2 reads_as
                (lines_read (coords_text (form Samples.ready_window)))
                [Examples.vertex (-21) 139; Examples.vertex (-21) 141;
                 Examples.vertex (-20) 141; Examples.vertex (-20) 139;
                 Examples.vertex (-21) 139]).
  { vm_compute lines_read. repeat constructor. }
  split; [exact F|].
  refine (proj1 (summary_and_validation_counts [] [] Samples.ready_window
                   _ F _)).
  simpl. lia.
Defined.

(** X11: the summary shows the query that the worker sends, in the
    suggested mode and in the custom mode with a term at least.  In the
    other cases the worker searches for everything, [*:*], and the summary
    says so in other words. *)
Theorem summary_shows_worker_query (f : Form) :
  if str_eqb (search_mode_var f) (txt "suggested")
     || str_eqb (search_mode_var f) (txt "custom")
        && negb (is_empty (strip (custom_terms_var f)))
  then search_terms f = search_query f
  else search_query f = txt "*:*" /\
       (search_terms f = txt "No terms" \/
        search_terms f = txt "*:* (everything)").
Proof.
  unfold search_terms, search_query.
  destruct (str_eqb (search_mode_var f) (txt "suggested")); [reflexivity|].
  destruct (str_eqb (search_mode_var f) (txt "custom")); simpl.
  - destruct (is_empty (strip (custom_terms_var f))); simpl; auto.
  - auto.
Qed.

(** the four ways of [start_download] *)
Lemma start_download_cases (w : Window) :
  (exists out n,
     parse_coordinates (coords_text (form w)) = Ok out /\
     PyInt.of_str (max_datasets_var (form w)) = inr n /\
     output_dir_var (form w) <> [] /\
     start_download w
     = start_thread (set_controls w DISABLED NORMAL true)
         {| polygon_coords := convert_latlon_to_lonlat out;
            max_datasets := n;
            output_dir := output_dir_var (form w) |}) \/
  (exists e,
     parse_coordinates (coords_text (form w)) = Raise e /\
     start_download w
     = reset_download_state
         (show_box w ShowError (txt "Error")
            (txt "Failed to start download: " ++ error_message e))) \/
  (exists out e,
     parse_coordinates (coords_text (form w)) = Ok out /\
     PyInt.of_str (max_datasets_var (form w)) = inl e /\
     start_download w
     = reset_download_state
         (show_box w ShowError (txt "Error")
            (txt "Failed to start download: " ++ PyInt.error_text e))) \/
  (exists out n,
     parse_coordinates (coords_text (form w)) = Ok out /\
     PyInt.of_str (max_datasets_var (form w)) = inr n /\
     output_dir_var (form w) = [] /\
     start_download w
     = show_box w ShowError (txt "Error")
         (txt "Please select an output directory")).
Proof.
  unfold start_download, start_download_body.
  destruct (parse_coordinates (coords_text (form w))) as [out|e] eqn:P.
  - destruct (PyInt.of_str (max_datasets_var (form w))) as [e|n] eqn:N.
    + right. right. left. now exists out, e.
    + destruct (output_dir_var (form w)) as [|c r] eqn:D.
      * right. right. right. now exists out, n.
      * left. exists out, n. repeat split; trivial. discriminate.
  - right. left. now exists e.
Qed.

(** ** What is given to a worker *)

Lemma swapped_in_region (out : list Coord) :
  Forall in_region out ->
  Forall (fun p => lon_in_range (fst p) = true /\ lat_in_range (snd p) = true)
    (convert_latlon_to_lonlat out).
Proof.
  unfold convert_latlon_to_lonlat.
  induction 1 as [|c cs [Hlat Hlon] _ IH]; simpl; constructor; trivial.
  now split.
Qed.

Lemma coord_ne_swap (a b : Coord) :
  coord_ne (snd a, fst a) (snd b, fst b) = coord_ne a b.
Proof. unfold coord_ne. simpl. now rewrite andb_comm. Qed.

Lemma ends_differ_swap (out : list Coord) :
  ends_differ (convert_latlon_to_lonlat out) = ends_differ out.
Proof.
  destruct out as [|a r]; [reflexivity|].
  unfold ends_differ, convert_latlon_to_lonlat, Coord in *. cbn [map].
  pose proof (map_rev (fun coord : PyFloat.float * PyFloat.float =>
                         (snd coord, fst coord)) (a :: r)) as E.
  cbn [map] in E. rewrite <- E. clear E.
  destruct (rev (a :: r)) as [|b r']; [reflexivity|].
  apply coord_ne_swap.
Qed.

Lemma accepted_in_region (text : str) (out : list Coord) :
  parse_coordinates text = Ok out -> Forall in_region out.
Proof.
  intros P. apply parse_coordinates_ok_inv in P as [coords [_ [F [L ->]]]].
  assert (R : Forall in_region coords).
  { clear L. induction F as [|l c ls cs Hl _ IH]; constructor; trivial.
    exact (reads_as_in_region _ _ Hl). }
  destruct (ends_differ coords); [|exact R].
  apply Forall_app. split; [exact R|].
  destruct coords as [|c cs]; [constructor|].
  inversion R; subst. simpl. now constructor.
Qed.

Lemma accepted_is_closed (text : str) (out : list Coord) :
  parse_coordinates text = Ok out -> ends_differ out = false.
Proof.
  intros P. apply parse_coordinates_ok_inv in P as [coords [_ [F [L ->]]]].
  destruct (ends_differ coords) eqn:D; [|exact D].
  destruct F as [|l c ls cs Hl _]; [discriminate|].
  exact (ends_differ_closed c cs (reads_as_in_region _ _ Hl)).
Qed.

(** X12: [start_download] starts a worker or shows an error box, always
    one of the two and never both, and leaves the form as it is.  A worker
    is started exactly when the coordinates parse, the maximum is an
    integer for [int] and the directory is not empty; it is given the
    parsed ring with each pair swapped, which is a closed ring of three
    points or more inside the region, and the controls are set to busy.
    Otherwise one error box is shown: the error of the coordinates, checked
    first, or that of the maximum, and then the controls are reset; or the
    request for a directory, and then nothing else changes. *)
Theorem start_download_outcome (w : Window) :
  form (start_download w) = form w /\
  List.length (threads_started (start_download w))
    + List.length (boxes_shown (start_download w))
  = List.length (threads_started w) + List.length (boxes_shown w) + 1 /\
  ((exists out n,
      parse_coordinates (coords_text (form w)) = Ok out /\
      PyInt.of_str (max_datasets_var (form w)) = inr n /\
      output_dir_var (form w) <> [] /\
      good_thread
        {| polygon_coords := convert_latlon_to_lonlat out;
           max_datasets := n;
           output_dir := output_dir_var (form w) |} /\
      start_download w
      = start_thread (set_controls w DISABLED NORMAL true)
          {| polygon_coords := convert_latlon_to_lonlat out;
             max_datasets := n;
             output_dir := output_dir_var (form w) |}) \/
   (exists e,
      parse_coordinates (coords_text (form w)) = Raise e /\
      start_download w
      = reset_download_state
          (show_box w ShowError (txt "Error")
             (txt "Failed to start download: " ++ error_message e))) \/
   (exists out e,
      parse_coordinates (coords_text (form w)) = Ok out /\
      PyInt.of_str (max_datasets_var (form w)) = inl e /\
      start_download w
      = reset_download_state
          (show_box w ShowError (txt "Error")
             (txt "Failed to start download: " ++ PyInt.error_text e))) \/
   (exists out n,
      parse_coordinates (coords_text (form w)) = Ok out /\
      PyInt.of_str (max_datasets_var (form w)) = inr n /\
      output_dir_var (form w) = [] /\
      start_download w
      = show_box w ShowError (txt "Error")
          (txt "Please select an output directory"))).
Proof.
  destruct (start_download_cases w)
    as [[out [n [P [N [D E]]]]]
       |[[e [P E]]|[[out [e [P [N E]]]]|[out [n [P [N [D E]]]]]]]].
  - split; [now rewrite E|].
    split; [rewrite E; simpl; rewrite length_app; simpl; lia|].
    left. exists out, n. repeat split; trivial.
    + simpl. unfold convert_latlon_to_lonlat. rewrite length_map.
      exact (parse_coordinates_length _ _ P).
    + exact (swapped_in_region _ (accepted_in_region _ _ P)).
    + simpl. rewrite ends_differ_swap. exact (accepted_is_closed _ _ P).
  - split; [now rewrite E|].
    split; [rewrite E; simpl; rewrite length_app; simpl; lia|].
    right. left. now exists e.
  - split; [now rewrite E|].
    split; [rewrite E; simpl; rewrite length_app; simpl; lia|].
    right. right. left. now exists out, e.
  - split; [now rewrite E|].
    split; [rewrite E; simpl; rewrite length_app; simpl; lia|].
    right. right. right. now exists out, n.
Qed.

(** ** The download controls along a run *)

Lemma consistent_frame (w w' : Window) :
  download_button w' = download_button w ->
  cancel_button w' = cancel_button w ->
  progress_bar_running w' = progress_bar_running w ->
  download_thread w' = download_thread w ->
  threads_started w' = threads_started w ->
  consistent w -> consistent w'.
Proof.
  unfold consistent, controls_ready, controls_busy.
  intros -> -> -> -> ->. trivial.
Qed.

Lemma consistent_reset (w : Window) :
  consistent w -> consistent (reset_download_state w).
Proof.
  unfold consistent, controls_ready, controls_busy. simpl.
  intros [_ [_ [G T]]]. repeat split; trivial.
  - now left.
  - intros [H _]. discriminate.
Qed.

Lemma consistent_start (w : Window) :
  consistent w -> consistent (start_download w).
Proof.
  intros C.
  destruct (start_download_cases w)
    as [[out [n [P [N [D ->]]]]]
       |[[e [_ ->]]|[[out [e [_ [_ ->]]]]|[out [n [_ [_ [_ ->]]]]]]]].
  - destruct C as [_ [_ [G T]]].
    unfold consistent, controls_ready, controls_busy. simpl.
    repeat split; trivial.
    + now right.
    + discriminate.
    + apply Forall_app. split; [exact G|]. constructor; [|constructor].
      unfold good_thread. simpl. repeat split; trivial.
      * unfold convert_latlon_to_lonlat. rewrite length_map.
        exact (parse_coordinates_length _ _ P).
      * exact (swapped_in_region _ (accepted_in_region _ _ P)).
      * rewrite ends_differ_swap. exact (accepted_is_closed _ _ P).
    + now exists (threads_started w).
  - apply consistent_reset. now apply (consistent_frame w).
  - apply consistent_reset. now apply (consistent_frame w).
  - now apply (consistent_frame w).
Qed.

(** X13: the download controls stay consistent along every run of the
    window.  Whatever events follow one another, clicks and ends of
    workers, completed or failed, the controls are ready
    (download enabled, cancel disabled, progress bar stopped) or busy (the
    opposite); when they are busy a worker was started; the worker that the
    window remembers is the last one started; and every worker started was
    given a closed ring of three points or more, in longitude-latitude
    order and inside the region, and a directory. *)
Theorem controls_stay_consistent
    (check_mark cross_mark clipboard pushpin microscope gear : str)
    (events : list Event) (w : Window) :
  consistent w ->
  consistent
    (run check_mark cross_mark clipboard pushpin microscope gear events w).
Proof.
  unfold run. revert w.
  induction events as [|ev evs IH]; intros w C; [exact C|].
  simpl. apply IH. clear IH.
  destruct ev as [| | | | | |alive|msg|results]; simpl.
  - unfold on_region_change.
    destruct (lookup _ _) as [info|]; [|exact C].
    destruct (negb _); [|now apply (consistent_frame w)].
    destruct (coords info) as [[|c cs]|]; now apply (consistent_frame w).
  - now apply (consistent_frame w).
  - now apply (consistent_frame w).
  - unfold validate_coords.
    destruct (parse_coordinates _) as [out|e];
      [destruct (3 <=? _)%nat|]; now apply (consistent_frame w).
  - destruct (update_summary _ _ _ _ _ _ _) as [f|e]; [|exact C].
    now apply (consistent_frame w).
  - destruct (download_button w); [now apply consistent_start | exact C].
  - destruct (cancel_button w); [|exact C]. unfold cancel_download.
    apply (consistent_frame
             (reset_download_state
                match download_thread w with
                | Some _ =>
                    if alive
                    then show_box w ShowWarning (txt "Cancel")
                           (txt "Download cancellation requested. "
                              ++ txt "The process may continue in the background.")
                    else w
                | None => w
                end)); try reflexivity.
    apply consistent_reset.
    destruct (download_thread w); [destruct alive|]; trivial;
      now apply (consistent_frame w).
  - unfold download_error.
    apply (consistent_frame (reset_download_state w)); try reflexivity.
    now apply consistent_reset.
  - unfold download_complete.
    apply (consistent_frame (reset_download_state w));
      try (now destruct results).
    now apply consistent_reset.
Qed.

Lemma ready_window_consistent : consistent Samples.ready_window.
Proof.
  unfold consistent, controls_ready, controls_busy. simpl.
  repeat split; trivial.
  - now left.
  - intros [H _]. discriminate.
Qed.

Lemma controls_stay_consistent_witness :
  consistent Samples.ready_window /\
  consistent (run [] [] [] [] [] [] Samples.restart Samples.ready_window) /\
  List.length
    (threads_started
       (run [] [] [] [] [] [] Samples.restart Samples.ready_window)) = 2.
Proof.
  split; [exact ready_window_consistent|].
  split; [|vm_compute; reflexivity].
  exact (controls_stay_consistent [] [] [] [] [] [] Samples.restart
           Samples.ready_window ready_window_consistent).
Defined.

Lemma one_more_frame (base : list Thread) (w w' : Window) :
  download_button w' = download_button w ->
  cancel_button w' = cancel_button w ->
  progress_bar_running w' = progress_bar_running w ->
  threads_started w' = threads_started w ->
  one_more base w -> one_more base w'.
Proof.
  unfold one_more, controls_ready, controls_busy.
  intros -> -> -> ->. trivial.
Qed.

Lemma one_more_handle
    (check_mark cross_mark clipboard pushpin microscope gear : str)
    (base : list Thread) (ev : Event) (w : Window) :
  releases ev = false ->
  one_more base w ->
  one_more base
    (handle check_mark cross_mark clipboard pushpin microscope gear ev w).
Proof.
  intros N I.
  destruct ev as [| | | | | |alive|msg|results]; try discriminate; simpl.
  - unfold on_region_change.
    destruct (lookup _ _) as [info|]; [|exact I].
    destruct (negb _); [|now apply (one_more_frame base w)].
    destruct (coords info) as [[|c cs]|]; now apply (one_more_frame base w).
  - now apply (one_more_frame base w).
  - now apply (one_more_frame base w).
  - unfold validate_coords.
    destruct (parse_coordinates _) as [out|e];
      [destruct (3 <=? _)%nat|]; now apply (one_more_frame base w).
  - destruct (update_summary _ _ _ _ _ _ _) as [f|e]; [|exact I].
    now apply (one_more_frame base w).
  - destruct (download_button w) eqn:B; [|exact I].
    destruct I as [[R T]|[[B' _] _]]; [|congruence].
    destruct (start_download_cases w)
      as [[out [n [_ [_ [_ ->]]]]]
         |[[e [_ ->]]|[[out [e [_ [_ ->]]]]|[out [n [_ [_ [_ ->]]]]]]]].
    + right. unfold controls_busy. simpl. split; [now repeat split|].
      rewrite T. now eexists.
    + left. unfold controls_ready. simpl. now repeat split.
    + left. unfold controls_ready. simpl. now repeat split.
    + left. split; [exact R | exact T].
Qed.

Lemma one_more_run
    (check_mark cross_mark clipboard pushpin microscope gear : str)
    (base : list Thread) (events : list Event) :
  forallb (fun ev => negb (releases ev)) events = true ->
  forall w : Window,
  one_more base w ->
  one_more base
    (run check_mark cross_mark clipboard pushpin microscope gear events w).
Proof.
  unfold run.
  induction events as [|ev evs IH]; intros N w I; [exact I|].
  simpl in N. apply andb_prop in N as [Nev Nevs].
  simpl fold_left. apply (IH Nevs).
  apply one_more_handle; [|exact I].
  now apply negb_true_iff.
Qed.

Lemma started_at_most_frame (n : nat) (w w' : Window) :
  download_button w' = download_button w ->
  cancel_button w' = cancel_button w ->
  progress_bar_running w' = progress_bar_running w ->
  threads_started w' = threads_started w ->
  started_at_most n w -> started_at_most n w'.
Proof.
  unfold started_at_most, controls_ready, controls_busy.
  intros -> -> -> ->. trivial.
Qed.

Lemma started_at_most_reset (n : nat) (w : Window) :
  started_at_most n w -> started_at_most (n + 1) (reset_download_state w).
Proof.
  unfold started_at_most, controls_ready, controls_busy. simpl.
  intros [[_ L]|[_ L]]; left; (split; [now repeat split | lia]).
Qed.

Lemma started_at_most_weaken (n : nat) (w : Window) :
  started_at_most n w -> started_at_most (n + 1) w.
Proof.
  unfold started_at_most. intros [[R L]|[B L]]; [left | right]; split;
    trivial; lia.
Qed.

Lemma started_at_most_handle
    (check_mark cross_mark clipboard pushpin microscope gear : str)
    (n : nat) (ev : Event) (w : Window) :
  started_at_most n w ->
  started_at_most (n + (if releases ev then 1 else 0))
    (handle check_mark cross_mark clipboard pushpin microscope gear ev w).
Proof.
  intros I.
  destruct ev as [| | | | | |alive|msg|results]; simpl;
    rewrite ?Nat.add_0_r.
  - unfold on_region_change.
    destruct (lookup _ _) as [info|]; [|exact I].
    destruct (negb _); [|now apply (started_at_most_frame n w)].
    destruct (coords info) as [[|c cs]|];
      now apply (started_at_most_frame n w).
  - now apply (started_at_most_frame n w).
  - now apply (started_at_most_frame n w).
  - unfold validate_coords.
    destruct (parse_coordinates _) as [out|e];
      [destruct (3 <=? _)%nat|]; now apply (started_at_most_frame n w).
  - destruct (update_summary _ _ _ _ _ _ _) as [f|e]; [|exact I].
    now apply (started_at_most_frame n w).
  - destruct (download_button w) eqn:B; [|exact I].
    destruct I as [[R L]|[[B' _] _]]; [|congruence].
    destruct (start_download_cases w)
      as [[out [k [_ [_ [_ ->]]]]]
         |[[e [_ ->]]|[[out [e [_ [_ ->]]]]|[out [k [_ [_ [_ ->]]]]]]]].
    + right. unfold controls_busy. simpl. split; [now repeat split|].
      rewrite length_app. simpl. lia.
    + left. unfold controls_ready. simpl. now repeat split.
    + left. unfold controls_ready. simpl. now repeat split.
    + left. split; [exact R | exact L].
  - destruct (cancel_button w); [|now apply started_at_most_weaken].
    unfold cancel_download.
    apply (started_at_most_frame (n + 1)
             (reset_download_state
                match download_thread w with
                | Some _ =>
                    if alive
                    then show_box w ShowWarning (txt "Cancel")
                           (txt "Download cancellation requested. "
                              ++ txt "The process may continue in the background.")
                    else w
                | None => w
                end)); try reflexivity.
    apply started_at_most_reset.
    destruct (download_thread w); [destruct alive|]; trivial;
      now apply (started_at_most_frame n w).
  - unfold download_error.
    apply (started_at_most_frame (n + 1) (reset_download_state w));
      try reflexivity.
    now apply started_at_most_reset.
  - unfold download_complete.
    apply (started_at_most_frame (n + 1) (reset_download_state w));
      try (now destruct results).
    now apply started_at_most_reset.
Qed.

Lemma started_at_most_run
    (check_mark cross_mark clipboard pushpin microscope gear : str)
    (events : list Event) :
  forall (n : nat) (w : Window),
  started_at_most n w ->
  started_at_most (n + List.length (filter releases events))
    (run check_mark cross_mark clipboard pushpin microscope gear events w).
Proof.
  unfold run.
  induction events as [|ev evs IH]; intros n w I; simpl.
  - now rewrite Nat.add_0_r.
  - pose proof (started_at_most_handle check_mark cross_mark clipboard
                  pushpin microscope gear n ev w I) as I'.
    apply IH in I'.
    destruct (releases ev); simpl.
    + now replace (n + S (List.length (filter releases evs)))
        with (n + 1 + List.length (filter releases evs)) by lia.
    + now rewrite Nat.add_0_r in I'.
Qed.

(** X14: one worker at a time.  The download button is disabled from the
    start of a worker until a handler resets the controls: the worker ends,
    completed or failed, or the cancel button is clicked.  So from ready
    controls a run starts one worker more, at most, than it holds such
    events, and that last worker only when the controls end busy; a run
    that holds none starts one worker at most, and the clicks on the
    download button that follow do nothing. *)
Theorem one_worker_until_release
    (check_mark cross_mark clipboard pushpin microscope gear : str)
    (events : list Event) (w : Window) :
  controls_ready w ->
  let w' :=
    run check_mark cross_mark clipboard pushpin microscope gear events w in
  let resets := List.length (filter releases events) in
  ((controls_ready w' /\
    List.length (threads_started w')
    <= List.length (threads_started w) + resets) \/
   (controls_busy w' /\
    List.length (threads_started w')
    <= List.length (threads_started w) + resets + 1)) /\
  (forallb (fun ev => negb (releases ev)) events = true ->
   (controls_ready w' /\ threads_started w' = threads_started w) \/
   (controls_busy w' /\
    exists t, threads_started w' = threads_started w ++ [t])).
Proof.
  intros R. split.
  - apply (started_at_most_run check_mark cross_mark clipboard pushpin
             microscope gear events (List.length (threads_started w)) w).
    left. now split.
  - intros N.
    apply (one_more_run check_mark cross_mark clipboard pushpin microscope
             gear (threads_started w) events N w).
    left. now split.
Qed.

(** the bound is reached: two workers for one end of a worker; and three
    clicks without such an event start one worker *)
Lemma one_worker_until_release_witness :
  let clicks := [StartDownloadClicked; ValidateClicked; StartDownloadClicked] in
  let w1 := run [] [] [] [] [] [] Samples.two_downloads Samples.ready_window in
  let w2 := run [] [] [] [] [] [] clicks Samples.ready_window in
  controls_ready Samples.ready_window /\
  List.length (filter releases Samples.two_downloads) = 1 /\
  List.length (threads_started w1) = 2 /\
  ((controls_ready w1 /\ List.length (threads_started w1) <= 0 + 1) \/
   (controls_busy w1 /\ List.length (threads_started w1) <= 0 + 1 + 1)) /\
  List.length (threads_started w2) = 1 /\
  ((controls_ready w2 /\
    threads_started w2 = threads_started Samples.ready_window) \/
   (controls_busy w2 /\
    exists t, threads_started w2 = threads_started Samples.ready_window ++ [t])).
Proof.
  assert (R : controls_ready Samples.ready_window)
    by (unfold controls_ready; simpl; now repeat split).
  split; [exact R|].
  split; [reflexivity|].
  split; [vm_compute; reflexivity|].
  split.
  - exact (proj1 (one_worker_until_release [] [] [] [] [] []
                    Samples.two_downloads Samples.ready_window R)).
  - split; [vm_compute; reflexivity|].
    exact (proj2 (one_worker_until_release [] [] [] [] [] []
                    [StartDownloadClicked; ValidateClicked;
                     StartDownloadClicked]
                    Samples.ready_window R) eq_refl).
Defined.
